(** * Strands format conversion and stream processing

    A shallow embedding of the utility module that converts GenU chat
    messages to the Strands wire format and that turns the Strands streaming
    events into text / trace / metadata records.

    Conventions of the embedding.
    - A JavaScript string is a [string]: a sequence of code units, each an
      [ascii], read as the code points U+0000 .. U+00FF.
    - [undefined] results of optional chaining are [None].
    - An object used as a lookup table ([formatMap], [base64Cache]) is a
      plain object: a [gmap] holds its own entries, and [readProperty]
      reads it as the code does, the members it inherits from
      [Object.prototype] included.
    - A call that can raise has an [Outcome]; an exception that nothing
      catches ends the caller as well.
    - [console] output is collected as a list of [ConsoleEntry]. *)

From Stdlib Require Import Ascii String.
From stdpp Require Import base strings list gmap.

Local Open Scope string_scope.
Local Open Scope list_scope.

(** ** String primitives of the host language *)

Module Js.

Definition code (c : ascii) : nat := nat_of_ascii c.

Definition between (lo hi n : nat) : bool := Nat.leb lo n && Nat.leb n hi.

(** WhiteSpace and LineTerminator code points below U+0100: TAB, LF, VT, FF,
    CR, SP and NBSP.  This is the class of [\s] and what [trim] removes. *)
Definition isWhiteSpace (c : ascii) : bool :=
  between 9 13 (code c) || Nat.eqb (code c) 32 || Nat.eqb (code c) 160.

(** LineTerminator code points below U+0100; [.] in a regular expression
    matches every code unit but these. *)
Definition isLineTerminator (c : ascii) : bool :=
  Nat.eqb (code c) 10 || Nat.eqb (code c) 13.

Definition isAsciiLower (c : ascii) : bool := between 97 122 (code c).
Definition isAsciiUpper (c : ascii) : bool := between 65 90 (code c).
Definition isAsciiDigit (c : ascii) : bool := between 48 57 (code c).

Definition isEmpty (s : string) : bool :=
  match s with EmptyString => true | String _ _ => false end.

(** A string is truthy when it is not empty. *)
Definition truthy (s : string) : bool := negb (isEmpty s).

Fixpoint trimStart (s : string) : string :=
  match s with
  | EmptyString => EmptyString
  | String c r => if isWhiteSpace c then trimStart r else s
  end.

Fixpoint trimEnd (s : string) : string :=
  match s with
  | EmptyString => EmptyString
  | String c r =>
      let r' := trimEnd r in
      if isEmpty r' && isWhiteSpace c then EmptyString else String c r'
  end.

(** [String.prototype.trim] *)
Definition trim (s : string) : string := trimEnd (trimStart s).

(** Lower-casing of one code unit below U+0100: A-Z, and the Latin-1
    capitals U+00C0 .. U+00DE other than the multiplication sign U+00D7. *)
Definition lowerChar (c : ascii) : ascii :=
  let n := code c in
  if isAsciiUpper c || (between 192 222 n && negb (Nat.eqb n 215))
  then ascii_of_nat (n + 32) else c.

(** [String.prototype.toLowerCase] *)
Fixpoint toLowerCase (s : string) : string :=
  match s with
  | EmptyString => EmptyString
  | String c r => String (lowerChar c) (toLowerCase r)
  end.

(** What is left of [s] after [p], when [s] starts with [p]. *)
Fixpoint stripPrefix (p s : string) : option string :=
  match p, s with
  | EmptyString, _ => Some s
  | String a p', String b s' =>
      if Ascii.eqb a b then stripPrefix p' s' else None
  | String _ _, EmptyString => None
  end.

(** [String.prototype.startsWith] *)
Definition startsWith (s p : string) : bool :=
  match stripPrefix p s with Some _ => true | None => false end.

(** The rest of [s] after the greedy match of the group [(.*,)] at its
    start: [.*] runs over code units that are no line terminators, and the
    match ends at the last comma it can reach.  [None]: the group does not
    match. *)
Fixpoint afterGreedyComma (s : string) : option string :=
  match s with
  | EmptyString => None
  | String c r =>
      if isLineTerminator c then None
      else match afterGreedyComma r with
           | Some rest => Some rest
           | None => if Ascii.eqb c "," then Some r else None
           end
  end.

(** [s.replace(/^data:(.*,)?/, '')] *)
Definition replaceDataPrefix (s : string) : string :=
  match stripPrefix "data:" s with
  | None => s
  | Some r =>
      match afterGreedyComma r with
      | Some rest => rest
      | None => r
      end
  end.

(** The character class [[a-zA-Z0-9\s\-()[\]]] *)
Definition inFileNameClass (c : ascii) : bool :=
  isAsciiLower c || isAsciiUpper c || isAsciiDigit c || isWhiteSpace c
  || Ascii.eqb c "-" || Ascii.eqb c "(" || Ascii.eqb c ")"
  || Ascii.eqb c "[" || Ascii.eqb c "]".

(** [s.replace(/[^a-zA-Z0-9\s\-()[\]]/g, 'X')] *)
Fixpoint replaceOutsideFileNameClass (s : string) : string :=
  match s with
  | EmptyString => EmptyString
  | String c r =>
      String (if inFileNameClass c then c else "X"%char)
             (replaceOutsideFileNameClass r)
  end.

End Js.

(** ** How an evaluation ends *)

(** How the evaluation of a statement ends. *)
Inductive Outcome (A : Type) :=
| Normal (a : A)
| Thrown.
Arguments Normal {A} a.
Arguments Thrown {A}.

(** ** Plain objects read by key *)

(** The property names every plain object inherits from [Object.prototype]. *)
Definition objectPrototypeMembers : list string :=
  [ "constructor"; "__proto__"; "hasOwnProperty"; "isPrototypeOf";
    "propertyIsEnumerable"; "toLocaleString"; "toString"; "valueOf";
    "__defineGetter__"; "__defineSetter__"; "__lookupGetter__";
    "__lookupSetter__" ].

Definition isPrototypeMember (key : string) : bool :=
  existsb (String.eqb key) objectPrototypeMembers.

(** What [table[key]] gives: the value of an own entry, the member of
    [Object.prototype] with that name (a function, or the prototype itself
    for [__proto__]), or [undefined]. *)
Inductive Indexed (A : Type) :=
| Entry (a : A)
| Inherited (key : string)
| Undefined.
Arguments Entry {A} a.
Arguments Inherited {A} key.
Arguments Undefined {A}.

(** [table[key]] on a plain object whose own entries are [table] *)
Definition readProperty {A} (table : gmap string A) (key : string) : Indexed A :=
  match table !! key with
  | Some a => Entry a
  | None => if isPrototypeMember key then Inherited key else Undefined
  end.

(** ** Data model of the converter *)

(** Modelled from the spec: the declaration of [ExtraData] is imported from
    the package [generative-ai-use-cases]; the fields are the ones the
    converter reads (the Attachment Descriptor and its Binary Source). *)
Record Source := {
  source_type : string;
  mediaType : string;
  source_data : string
}.

(** An attachment: [data.type], [data.name] and [data.source]. *)
Record ExtraData := {
  data_type : string;
  data_name : string;
  source : Source
}.

(** Modelled from the spec: the declaration of [UnrecordedMessage] is
    imported; [extraData] is optional. *)
Record UnrecordedMessage := {
  role : string;
  content : string;
  extraData : option (list ExtraData)
}.

(** Modelled from the spec: the declaration of [UploadedFileType] is
    imported; a record has a locator and an optional cached payload. *)
Record UploadedFileType := {
  s3Url : option string;
  base64EncodedData : option string
}.

Inductive ImageFormat := png | jpeg | gif | webp.

Inductive DocumentFormat := pdf | csv | doc | docx | xls | xlsx | html | txt | md.

Inductive VideoFormat := flv | mkv | mov | mpeg | mpg | mp4 | three_gp | webm | wmv.

(** Modelled from the spec: the declaration of [StrandsContentBlock] is
    imported; the shape is the one of the object literals the converter
    builds.  A format is what reading the table gave: [Undefined] when the
    lookup gives [undefined]. *)
Inductive StrandsContentBlock :=
| TextBlock (text : string)
| ImageBlock (format : Indexed ImageFormat) (bytes : string)
| DocumentBlock (format : Indexed DocumentFormat) (name : string) (bytes : string)
| VideoBlock (format : Indexed VideoFormat) (bytes : string).

(** What the converter returns for one message. *)
Record StrandsMessage := {
  msg_role : string;
  msg_content : list StrandsContentBlock
}.

(** The [File] objects of the raw-file entry point: the two properties read. *)
Record File := {
  file_name : string;
  file_type : string
}.

(** The calls of [console.log], [console.warn] and [console.error]. *)
Inductive ConsoleEntry :=
| LogConvertToStrandsFormat
    (uploadedFiles : option (list UploadedFileType))
    (base64Cache : option (gmap string string))
| WarnNoBase64Data (data : ExtraData)
| WarnUnsupportedExtraDataType (type : string)
| ErrorProcessingStreamEvent.

(** ** MIME tables *)

Definition imageFormatMap : gmap string ImageFormat :=
  list_to_map
    [ ("image/png", png); ("image/jpeg", jpeg); ("image/jpg", jpeg);
      ("image/gif", gif); ("image/webp", webp) ].

Definition documentFormatMap : gmap string DocumentFormat :=
  list_to_map
    [ ("application/pdf", pdf); ("text/csv", csv);
      ("application/msword", doc);
      ("application/vnd.openxmlformats-officedocument.wordprocessingml.document",
       docx);
      ("application/vnd.ms-excel", xls);
      ("application/vnd.openxmlformats-officedocument.spreadsheetml.sheet", xlsx);
      ("text/html", html); ("text/plain", txt); ("text/markdown", md) ].

Definition videoFormatMap : gmap string VideoFormat :=
  list_to_map
    [ ("video/x-flv", flv); ("video/x-matroska", mkv);
      ("video/quicktime", mov); ("video/mpeg", mpeg); ("video/mp4", mp4);
      ("video/3gpp", three_gp); ("video/webm", webm);
      ("video/x-ms-wmv", wmv) ].

Definition getImageFormatFromMimeType (mimeType : string) : Indexed ImageFormat :=
  readProperty imageFormatMap (Js.toLowerCase mimeType).

Definition getDocumentFormatFromMimeType (mimeType : string)
  : Indexed DocumentFormat :=
  readProperty documentFormatMap (Js.toLowerCase mimeType).

Definition getVideoFormatFromMimeType (mimeType : string) : Indexed VideoFormat :=
  readProperty videoFormatMap (Js.toLowerCase mimeType).

(** ** The attachment resolver *)

(** [uploadedFiles?.find(f => f.s3Url === locator)?.base64EncodedData] *)
Definition findUploadedPayload
    (uploadedFiles : option (list UploadedFileType)) (locator : string)
  : option string :=
  files ← uploadedFiles;
  uploadedFile ←
    List.find (fun uploadedFile =>
                 match s3Url uploadedFile with
                 | Some url => String.eqb url locator
                 | None => false
                 end) files;
  base64EncodedData uploadedFile.

(** [base64Cache?.[locator]] *)
Definition cacheLookup
    (base64Cache : option (gmap string string)) (locator : string)
  : Indexed string :=
  match base64Cache with
  | Some cache => readProperty cache locator
  | None => Undefined
  end.

(** [base64Cache?.[locator]?.replace(/^data:(.*,)?/, '')].  An inherited
    member is neither [undefined] nor a string: it has no [replace], and
    calling it raises a TypeError. *)
Definition cachedPayload
    (base64Cache : option (gmap string string)) (locator : string)
  : Outcome (option string) :=
  match cacheLookup base64Cache locator with
  | Entry value => Normal (Some (Js.replaceDataPrefix value))
  | Undefined => Normal None
  | Inherited _ => Thrown
  end.

(** The value of [base64Data] once the source type has been looked at. *)
Definition resolveBase64Data
    (data : ExtraData)
    (uploadedFiles : option (list UploadedFileType))
    (base64Cache : option (gmap string string)) : Outcome (option string) :=
  if String.eqb (source_type (source data)) "base64" then
    Normal (Some (source_data (source data)))
  else if String.eqb (source_type (source data)) "s3" then
    match findUploadedPayload uploadedFiles (source_data (source data)) with
    | Some payload => Normal (Some (Js.replaceDataPrefix payload))
    | None => cachedPayload base64Cache (source_data (source data))
    end
  else Normal None.

Definition convertExtraDataToStrandsContentBlock
    (data : ExtraData)
    (uploadedFiles : option (list UploadedFileType))
    (base64Cache : option (gmap string string))
  : Outcome (option StrandsContentBlock) * list ConsoleEntry :=
  match resolveBase64Data data uploadedFiles base64Cache with
  | Thrown => (Thrown, [])
  | Normal (Some base64Data) =>
      if negb (Js.truthy base64Data) then (Normal None, [WarnNoBase64Data data])
      else if String.eqb (data_type data) "image" then
        (Normal (Some (ImageBlock
                         (getImageFormatFromMimeType (mediaType (source data)))
                         base64Data)), [])
      else if String.eqb (data_type data) "file" then
        (Normal (Some (DocumentBlock
                         (getDocumentFormatFromMimeType (mediaType (source data)))
                         (data_name data) base64Data)), [])
      else if String.eqb (data_type data) "video" then
        (Normal (Some (VideoBlock
                         (getVideoFormatFromMimeType (mediaType (source data)))
                         base64Data)), [])
      else (Normal None, [WarnUnsupportedExtraDataType (data_type data)])
  | Normal None => (Normal None, [WarnNoBase64Data data])
  end.

(** ** The message converter *)

(** One turn of the loop over [message.extraData]: the block list and the
    console after the attachment [data] has been handled.  Once the
    resolver has thrown the loop is left. *)
Definition pushExtraData
    (uploadedFiles : option (list UploadedFileType))
    (base64Cache : option (gmap string string))
    (acc : Outcome (list StrandsContentBlock) * list ConsoleEntry)
    (data : ExtraData)
  : Outcome (list StrandsContentBlock) * list ConsoleEntry :=
  match acc.1 with
  | Thrown => acc
  | Normal contentBlocks =>
      let '(contentBlock, warnings) :=
        convertExtraDataToStrandsContentBlock data uploadedFiles base64Cache in
      match contentBlock with
      | Normal (Some block) =>
          (Normal (contentBlocks ++ [block]), acc.2 ++ warnings)
      | Normal None => (Normal contentBlocks, acc.2 ++ warnings)
      | Thrown => (Thrown, acc.2 ++ warnings)
      end
  end.

(** The body of the callback given to [messages.map]. *)
Definition convertMessage
    (uploadedFiles : option (list UploadedFileType))
    (base64Cache : option (gmap string string))
    (message : UnrecordedMessage)
  : Outcome StrandsMessage * list ConsoleEntry :=
  let contentBlocks0 :=
    if Js.truthy (content message) && Js.truthy (Js.trim (content message))
    then [TextBlock (content message)] else [] in
  let '(contentBlocks1, console) :=
    match extraData message with
    | Some extra =>
        fold_left (pushExtraData uploadedFiles base64Cache) extra
                  (Normal contentBlocks0, [])
    | None => (Normal contentBlocks0, [])
    end in
  match contentBlocks1 with
  | Thrown => (Thrown, console)
  | Normal contentBlocks =>
      let contentBlocks2 :=
        if Nat.eqb (length contentBlocks) 0
        then contentBlocks ++
             [TextBlock (if Js.truthy (content message)
                         then content message else "")]
        else contentBlocks in
      (Normal {| msg_role := role message; msg_content := contentBlocks2 |},
       console)
  end.

(** [messages.map(callback)]: the callback is applied to the messages in
    order, and an exception it raises ends the whole call. *)
Fixpoint mapMessages
    (callback : UnrecordedMessage -> Outcome StrandsMessage * list ConsoleEntry)
    (messages : list UnrecordedMessage)
  : Outcome (list StrandsMessage) * list ConsoleEntry :=
  match messages with
  | [] => (Normal [], [])
  | message :: rest =>
      match callback message with
      | (Normal out, console) =>
          let '(outs, console') := mapMessages callback rest in
          (match outs with
           | Normal others => Normal (out :: others)
           | Thrown => Thrown
           end, console ++ console')
      | (Thrown, console) => (Thrown, console)
      end
  end.

Definition convertToStrandsFormat
    (messages : list UnrecordedMessage)
    (uploadedFiles : option (list UploadedFileType))
    (base64Cache : option (gmap string string))
  : Outcome (list StrandsMessage) * list ConsoleEntry :=
  let '(result, console) :=
    mapMessages (convertMessage uploadedFiles base64Cache) messages in
  (result, LogConvertToStrandsFormat uploadedFiles base64Cache :: console).

(** ** The raw-file entry point *)

Definition convertFileToStrandsContentBlock (file : File) (base64Data : string)
  : option StrandsContentBlock :=
  let mimeType := file_type file in
  let fileName := Js.replaceOutsideFileNameClass (file_name file) in
  if Js.startsWith mimeType "image/" then
    Some (ImageBlock (getImageFormatFromMimeType mimeType) base64Data)
  else if Js.startsWith mimeType "video/" then
    Some (VideoBlock (getVideoFormatFromMimeType mimeType) base64Data)
  else
    Some (DocumentBlock (getDocumentFormatFromMimeType mimeType) fileName
                        base64Data).

(** ** Values produced by [JSON.parse] *)

(** A number is kept as its decimal rendering ([Number.prototype.toString]),
    which is all the processor can observe of it.  [JUndefined] is never
    inside a parsed value; it is what reading a missing property gives. *)
#[local] Unset Elimination Schemes.
Inductive JsVal :=
| JUndefined
| JNull
| JBool (b : bool)
| JNum (repr : string)
| JStr (s : string)
| JArr (items : list JsVal)
| JObj (props : list (string * JsVal)).
#[local] Set Elimination Schemes.

Module JsVal.

Fixpoint assoc {A} (key : string) (props : list (string * A)) : option A :=
  match props with
  | [] => None
  | (k, v) :: rest => if String.eqb k key then Some v else assoc key rest
  end.

Definition hasOwn {A} (key : string) (props : list (string * A)) : bool :=
  match assoc key props with Some _ => true | None => false end.

(** ToBoolean *)
Definition truthy (v : JsVal) : bool :=
  match v with
  | JUndefined | JNull => false
  | JBool b => b
  | JNum repr => negb (String.eqb repr "0")
  | JStr s => Js.truthy s
  | JArr _ | JObj _ => true
  end.

(** [v.key] for the property names the processor reads: none of them is an
    array index, [length], or a member of a built-in prototype.  [None] is
    the TypeError of reading a property of [undefined] or [null]. *)
Definition getProp (v : JsVal) (key : string) : option JsVal :=
  match v with
  | JUndefined | JNull => None
  | JObj props => Some (default JUndefined (assoc key props))
  | JBool _ | JNum _ | JStr _ | JArr _ => Some JUndefined
  end.

(** [key in v], for the same property names.  [None] is the TypeError of
    using [in] on a value that is no object. *)
Definition hasProperty (key : string) (v : JsVal) : option bool :=
  match v with
  | JObj props => Some (hasOwn key props)
  | JArr _ => Some false
  | JUndefined | JNull | JBool _ | JNum _ | JStr _ => None
  end.

(** ToString, as applied by a template literal and by [+=] on a string.
    An array is joined with commas, [null] and [undefined] items giving the
    empty string.  A plain object gives ["[object Object]"], unless an own
    property hides [toString]: then no method yields a primitive and the
    conversion raises a TypeError, [None]. *)
Fixpoint toStr (v : JsVal) : option string :=
  match v with
  | JUndefined => Some "undefined"
  | JNull => Some "null"
  | JBool b => Some (if b then "true" else "false")
  | JNum repr => Some repr
  | JStr s => Some s
  | JArr items =>
      (fix join (l : list JsVal) : option string :=
         match l with
         | [] => Some ""
         | x :: rest =>
             match (match x with
                    | JUndefined | JNull => Some ""
                    | _ => toStr x
                    end) with
             | None => None
             | Some sx =>
                 match rest with
                 | [] => Some sx
                 | _ :: _ =>
                     match join rest with
                     | None => None
                     | Some srest => Some (sx +:+ "," +:+ srest)
                     end
                 end
             end
         end) items
  | JObj props => if hasOwn "toString" props then None else Some "[object Object]"
  end.

End JsVal.

(** ** The stream processor *)

Inductive ContentBlockType := CBText | CBToolUse | CBReasoning | CBNull.

(** The two private fields of [StrandsStreamProcessor]. *)
Record Processor := {
  currentContentBlockType : ContentBlockType;
  toolUseBuffer : string
}.

Record Usage := {
  inputTokens : JsVal;
  outputTokens : JsVal;
  totalTokens : JsVal;
  cacheReadInputTokens : JsVal;
  cacheWriteInputTokens : JsVal
}.

Record Metadata := { usage : Usage }.

(** The record [processEvent] returns; [trace] and [metadata] are [None]
    when the object literal has no such key. *)
Record Output := {
  text : JsVal;
  trace : option JsVal;
  metadata : option Metadata
}.

(** What the processor and the console look like between two statements. *)
Record Runtime := {
  this : Processor;
  console : list ConsoleEntry
}.

(** Statements: they read and write the runtime and may throw. *)
Definition M (A : Type) : Type := Runtime -> Outcome A * Runtime.

Definition ret {A} (a : A) : M A := fun rt => (Normal a, rt).

Definition throw {A} : M A := fun rt => (Thrown, rt).

Definition bind {A B} (m : M A) (k : A -> M B) : M B :=
  fun rt =>
    match m rt with
    | (Normal a, rt') => k a rt'
    | (Thrown, rt') => (Thrown, rt')
    end.

Notation "'let*' x ':=' m 'in' k" := (bind m (fun x => k))
  (at level 10, x name, m at level 100, k at level 200).
Notation "m ';;' k" := (bind m (fun _ => k))
  (at level 100, k at level 200, right associativity).

(** [try { body } catch (error) { handler }] *)
Definition tryCatch {A} (body handler : M A) : M A :=
  fun rt =>
    match body rt with
    | (Normal a, rt') => (Normal a, rt')
    | (Thrown, rt') => handler rt'
    end.

(** An operation that raises when it has no result. *)
Definition orThrow {A} (o : option A) : M A :=
  match o with Some a => ret a | None => throw end.

Definition setCurrentContentBlockType (t : ContentBlockType) : M unit :=
  fun rt =>
    (Normal tt,
     {| this := {| currentContentBlockType := t;
                   toolUseBuffer := toolUseBuffer (this rt) |};
        console := console rt |}).

Definition setToolUseBuffer (b : string) : M unit :=
  fun rt =>
    (Normal tt,
     {| this := {| currentContentBlockType := currentContentBlockType (this rt);
                   toolUseBuffer := b |};
        console := console rt |}).

Definition getCurrentContentBlockType : M ContentBlockType :=
  fun rt => (Normal (currentContentBlockType (this rt)), rt).

Definition getToolUseBuffer : M string :=
  fun rt => (Normal (toolUseBuffer (this rt)), rt).

Definition consoleWrite (e : ConsoleEntry) : M unit :=
  fun rt => (Normal tt, {| this := this rt; console := console rt ++ [e] |}).

(** [reset()] *)
Definition reset : M unit :=
  setCurrentContentBlockType CBNull ;; setToolUseBuffer "".

(** How one of the [if] blocks of [processEvent] ends: with a [return], or
    by running into the statement after it. *)
Inductive Flow :=
| Return (result : option Output)
| FallThrough.

Definition LF : string := String (ascii_of_nat 10) EmptyString.

Definition textOnly (t : JsVal) : Output :=
  {| text := t; trace := None; metadata := None |}.

Definition traceOnly (t : JsVal) : Output :=
  {| text := JStr ""; trace := Some t; metadata := None |}.

(** [if (streamEvent.contentBlockStart) { ... }] *)
Definition onContentBlockStart (streamEvent : JsVal) : M Flow :=
  let* contentBlockStart := orThrow (JsVal.getProp streamEvent "contentBlockStart") in
  if JsVal.truthy contentBlockStart then
    let* start := orThrow (JsVal.getProp contentBlockStart "start") in
    let* textIn := orThrow (JsVal.hasProperty "text" start) in
    let* startText :=
      (if textIn then orThrow (JsVal.getProp start "text") else ret JUndefined) in
    if textIn && JsVal.truthy startText then
      setCurrentContentBlockType CBText ;;
      ret (Return (Some (textOnly startText)))
    else
      let* toolUseIn := orThrow (JsVal.hasProperty "toolUse" start) in
      let* toolUse :=
        (if toolUseIn then orThrow (JsVal.getProp start "toolUse")
         else ret JUndefined) in
      if toolUseIn && JsVal.truthy toolUse then
        setCurrentContentBlockType CBToolUse ;;
        setToolUseBuffer "" ;;
        let* name := orThrow (JsVal.getProp toolUse "name") in
        let* nameText := orThrow (JsVal.toStr name) in
        ret (Return (Some (traceOnly (JStr ("```" +:+ nameText +:+ LF)))))
      else ret FallThrough
  else ret FallThrough.

(** [if (streamEvent.contentBlockDelta) { ... }] *)
Definition onContentBlockDelta (streamEvent : JsVal) : M Flow :=
  let* contentBlockDelta := orThrow (JsVal.getProp streamEvent "contentBlockDelta") in
  if JsVal.truthy contentBlockDelta then
    let* delta := orThrow (JsVal.getProp contentBlockDelta "delta") in
    let* deltaText := orThrow (JsVal.getProp delta "text") in
    if JsVal.truthy deltaText then
      setCurrentContentBlockType CBText ;;
      ret (Return (Some (textOnly deltaText)))
    else
      let* toolUse := orThrow (JsVal.getProp delta "toolUse") in
      if JsVal.truthy toolUse then
        setCurrentContentBlockType CBToolUse ;;
        let* buffer := getToolUseBuffer in
        let* input := orThrow (JsVal.getProp toolUse "input") in
        let* inputText := orThrow (JsVal.toStr input) in
        setToolUseBuffer (buffer +:+ inputText) ;;
        let* input' := orThrow (JsVal.getProp toolUse "input") in
        ret (Return (Some (traceOnly input')))
      else
        let* reasoningContent := orThrow (JsVal.getProp delta "reasoningContent") in
        let* reasoningText :=
          (match reasoningContent with
           | JUndefined | JNull => ret JUndefined
           | _ => orThrow (JsVal.getProp reasoningContent "text")
           end) in
        if JsVal.truthy reasoningText then
          setCurrentContentBlockType CBReasoning ;;
          ret (Return (Some (traceOnly reasoningText)))
        else ret FallThrough
  else ret FallThrough.

(** [if (streamEvent.contentBlockStop) { ... }] *)
Definition onContentBlockStop (streamEvent : JsVal) : M Flow :=
  let* contentBlockStop := orThrow (JsVal.getProp streamEvent "contentBlockStop") in
  if JsVal.truthy contentBlockStop then
    let* current := getCurrentContentBlockType in
    match current with
    | CBText =>
        let result := textOnly (JStr LF) in
        setCurrentContentBlockType CBNull ;;
        ret (Return (Some result))
    | CBToolUse =>
        let result := traceOnly (JStr (LF +:+ "```" +:+ LF)) in
        setCurrentContentBlockType CBNull ;;
        ret (Return (Some result))
    | CBReasoning | CBNull =>
        setCurrentContentBlockType CBNull ;;
        ret (Return None)
    end
  else ret FallThrough.

(** [if (streamEvent.metadata) { ... }] *)
Definition onMetadata (streamEvent : JsVal) : M Flow :=
  let* meta := orThrow (JsVal.getProp streamEvent "metadata") in
  if JsVal.truthy meta then
    let* u := orThrow (JsVal.getProp meta "usage") in
    let* inTok := orThrow (JsVal.getProp u "inputTokens") in
    let* outTok := orThrow (JsVal.getProp u "outputTokens") in
    let* totTok := orThrow (JsVal.getProp u "totalTokens") in
    let* cacheRead := orThrow (JsVal.getProp u "cacheReadInputTokens") in
    let* cacheWrite := orThrow (JsVal.getProp u "cacheWriteInputTokens") in
    ret (Return (Some
      {| text := JStr "";
         trace := None;
         metadata := Some {| usage :=
           {| inputTokens := inTok;
              outputTokens := outTok;
              totalTokens := totTok;
              cacheReadInputTokens := cacheRead;
              cacheWriteInputTokens := cacheWrite |} |} |}))
  else ret FallThrough.

(** [a || b], the right operand evaluated only when needed *)
Definition logicalOr (a : JsVal) (b : M JsVal) : M JsVal :=
  if JsVal.truthy a then ret a else b.

(** [const errorEvent = ... || ...; if (errorEvent) { ... }] *)
Definition onErrorEvent (streamEvent : JsVal) : M Flow :=
  let* internalServer := orThrow (JsVal.getProp streamEvent "internalServerException") in
  let* errorEvent :=
    logicalOr internalServer (
      let* modelStream := orThrow (JsVal.getProp streamEvent "modelStreamErrorException") in
      logicalOr modelStream (
        let* serviceUnavailable :=
          orThrow (JsVal.getProp streamEvent "serviceUnavailableException") in
        logicalOr serviceUnavailable (
          let* throttling := orThrow (JsVal.getProp streamEvent "throttlingException") in
          logicalOr throttling (
            orThrow (JsVal.getProp streamEvent "validationException"))))) in
  if JsVal.truthy errorEvent then
    let* message := orThrow (JsVal.getProp errorEvent "message") in
    let* shown := logicalOr message (ret (JStr "An error occurred")) in
    let* shownText := orThrow (JsVal.toStr shown) in
    ret (Return (Some (textOnly (JStr ("Error: " +:+ shownText)))))
  else ret FallThrough.

(** [if (streamEvent.redactContent) { ... }] *)
Definition onRedactContent (streamEvent : JsVal) : M Flow :=
  let* redactContent := orThrow (JsVal.getProp streamEvent "redactContent") in
  if JsVal.truthy redactContent then
    let* message := orThrow (JsVal.getProp redactContent "redactAssistantContentMessage") in
    if JsVal.truthy message then ret (Return (Some (textOnly message)))
    else ret (Return None)
  else ret FallThrough.

(** Runs [block]; on fall-through goes on with [rest]. *)
Definition orElse (block : M Flow) (rest : M (option Output)) : M (option Output) :=
  let* flow := block in
  match flow with
  | Return result => ret result
  | FallThrough => rest
  end.

(** The statements of the [try] block of [processEvent] that follow the
    call of [JSON.parse]. *)
Definition processParsedEvent (parsedEvent : JsVal) : M (option Output) :=
  let* streamEvent := orThrow (JsVal.getProp parsedEvent "event") in
  if negb (JsVal.truthy streamEvent) then ret None else
  let* messageStart := orThrow (JsVal.getProp streamEvent "messageStart") in
  if JsVal.truthy messageStart then (reset ;; ret None) else
  orElse (onContentBlockStart streamEvent) (
  orElse (onContentBlockDelta streamEvent) (
  orElse (onContentBlockStop streamEvent) (
  let* messageStop := orThrow (JsVal.getProp streamEvent "messageStop") in
  if JsVal.truthy messageStop then (reset ;; ret None) else
  orElse (onMetadata streamEvent) (
  orElse (onErrorEvent streamEvent) (
  orElse (onRedactContent streamEvent) (
  ret None)))))).

(** The body of the [try] block of [processEvent].  [JSON_parse] is the
    host's [JSON.parse]; [None] is its SyntaxError. *)
Definition processEventBody
    (JSON_parse : string -> option JsVal) (eventText : string)
  : M (option Output) :=
  let* parsedEvent := orThrow (JSON_parse eventText) in
  processParsedEvent parsedEvent.

Definition processEvent
    (JSON_parse : string -> option JsVal) (eventText : string)
  : M (option Output) :=
  tryCatch (processEventBody JSON_parse eventText)
           (consoleWrite ErrorProcessingStreamEvent ;; ret None).

(** Feeding the frames of a stream to the processor one after the other, as
    the consumer of the stream does; the results are kept in order. *)
Fixpoint processEvents
    (JSON_parse : string -> option JsVal) (eventTexts : list string)
  : M (list (option Output)) :=
  match eventTexts with
  | [] => ret []
  | eventText :: rest =>
      let* result := processEvent JSON_parse eventText in
      let* results := processEvents JSON_parse rest in
      ret (result :: results)
  end.

(** ** The frames of the protocol *)

Inductive StartPayload :=
| StartText (startText : string)
| StartToolUse (name : string).

Inductive DeltaPayload :=
| DeltaText (deltaText : string)
| DeltaToolUse (input : string)
| DeltaReasoning (reasoningText : string).

Inductive ErrorKind :=
| InternalServer | ModelStream | ServiceUnavailable | Throttling | Validation.

Record UsagePayload := {
  usageInputTokens : string;
  usageOutputTokens : string;
  usageTotalTokens : string;
  usageCacheRead : option string;
  usageCacheWrite : option string
}.

(** Modelled from the spec: the declaration of [StrandsStreamEvent] is
    imported from the package [generative-ai-use-cases]; these are the frame
    kinds of the dispatch table, each carrying the one field it is named
    after. *)
Inductive Frame :=
| MessageStart
| ContentBlockStart (start : StartPayload)
| ContentBlockDelta (delta : DeltaPayload)
| ContentBlockStop
| MessageStop
| MetadataFrame (u : UsagePayload)
| ErrorFrame (kind : ErrorKind) (message : option string)
| RedactContent (redactAssistantContentMessage : option string).

Definition errorEventName (kind : ErrorKind) : string :=
  match kind with
  | InternalServer => "internalServerException"
  | ModelStream => "modelStreamErrorException"
  | ServiceUnavailable => "serviceUnavailableException"
  | Throttling => "throttlingException"
  | Validation => "validationException"
  end.

Definition obj1 (key : string) (v : JsVal) : JsVal := JObj [(key, v)].

Definition optionalProp (key : string) (v : option string)
  : list (string * JsVal) :=
  match v with Some s => [(key, JStr s)] | None => [] end.

Definition optionalNum (key : string) (v : option string)
  : list (string * JsVal) :=
  match v with Some n => [(key, JNum n)] | None => [] end.

(** The value of the [event] field of a frame. *)
Definition encodeEvent (f : Frame) : JsVal :=
  match f with
  | MessageStart => obj1 "messageStart" (obj1 "role" (JStr "assistant"))
  | ContentBlockStart (StartText t) =>
      obj1 "contentBlockStart" (obj1 "start" (obj1 "text" (JStr t)))
  | ContentBlockStart (StartToolUse name) =>
      obj1 "contentBlockStart"
           (obj1 "start" (obj1 "toolUse" (obj1 "name" (JStr name))))
  | ContentBlockDelta (DeltaText t) =>
      obj1 "contentBlockDelta" (obj1 "delta" (obj1 "text" (JStr t)))
  | ContentBlockDelta (DeltaToolUse input) =>
      obj1 "contentBlockDelta"
           (obj1 "delta" (obj1 "toolUse" (obj1 "input" (JStr input))))
  | ContentBlockDelta (DeltaReasoning t) =>
      obj1 "contentBlockDelta"
           (obj1 "delta" (obj1 "reasoningContent" (obj1 "text" (JStr t))))
  | ContentBlockStop => obj1 "contentBlockStop" (JObj [])
  | MessageStop => obj1 "messageStop" (JObj [])
  | MetadataFrame u =>
      obj1 "metadata"
           (obj1 "usage"
                 (JObj ([ ("inputTokens", JNum (usageInputTokens u));
                          ("outputTokens", JNum (usageOutputTokens u));
                          ("totalTokens", JNum (usageTotalTokens u)) ]
                        ++ optionalNum "cacheReadInputTokens" (usageCacheRead u)
                        ++ optionalNum "cacheWriteInputTokens" (usageCacheWrite u))))
  | ErrorFrame kind message =>
      obj1 (errorEventName kind) (JObj (optionalProp "message" message))
  | RedactContent message =>
      obj1 "redactContent"
           (JObj (optionalProp "redactAssistantContentMessage" message))
  end.

(** The parsed form of a frame as it comes off the wire. *)
Definition encode (f : Frame) : JsVal := obj1 "event" (encodeEvent f).

(** The display name as the specification words it: every character outside
    letters, digits, the space character, hyphen, parentheses and square
    brackets is replaced. *)
Module Spec.

Definition inNameSet (c : ascii) : bool :=
  Js.isAsciiLower c || Js.isAsciiUpper c || Js.isAsciiDigit c
  || Ascii.eqb c " " || Ascii.eqb c "-" || Ascii.eqb c "(" || Ascii.eqb c ")"
  || Ascii.eqb c "[" || Ascii.eqb c "]".

Fixpoint sanitizedName (s : string) : string :=
  match s with
  | EmptyString => EmptyString
  | String c r =>
      String (if inNameSet c then c else "X"%char) (sanitizedName r)
  end.

End Spec.

Definition TAB : string := String (ascii_of_nat 9) EmptyString.

(** ** Frame texts *)

(** [JSON.stringify] on parsed values, and the part of [JSON.parse] that
    reads such texts back. *)
Module Json.

Definition DQ : string := String (ascii_of_nat 34) EmptyString.
Definition BS : string := String (ascii_of_nat 92) EmptyString.

Definition hexDigit (n : nat) : string :=
  match String.get n "0123456789abcdef" with
  | Some c => String c EmptyString
  | None => EmptyString
  end.

Definition escapeChar (c : ascii) : string :=
  let n := Js.code c in
  if Nat.eqb n 34 then BS +:+ DQ
  else if Nat.eqb n 92 then BS +:+ BS
  else if Nat.eqb n 8 then BS +:+ "b"
  else if Nat.eqb n 9 then BS +:+ "t"
  else if Nat.eqb n 10 then BS +:+ "n"
  else if Nat.eqb n 12 then BS +:+ "f"
  else if Nat.eqb n 13 then BS +:+ "r"
  else if Nat.ltb n 32 then
    BS +:+ "u00" +:+ hexDigit (n / 16) +:+ hexDigit (n mod 16)
  else String c EmptyString.

Fixpoint escape (s : string) : string :=
  match s with
  | EmptyString => EmptyString
  | String c r => escapeChar c +:+ escape r
  end.

Definition quote (s : string) : string := DQ +:+ escape s +:+ DQ.

Fixpoint join (parts : list string) : string :=
  match parts with
  | [] => EmptyString
  | [x] => x
  | x :: rest => x +:+ "," +:+ join rest
  end.

(** [None] is [undefined]: inside an array it is written [null], inside an
    object the property is left out. *)
Fixpoint stringify (v : JsVal) : option string :=
  match v with
  | JUndefined => None
  | JNull => Some "null"
  | JBool b => Some (if b then "true" else "false")
  | JNum repr => Some repr
  | JStr s => Some (quote s)
  | JArr items =>
      Some ("[" +:+ join (map (fun x => default "null" (stringify x)) items)
                +:+ "]")
  | JObj props =>
      Some ("{" +:+ join (omap (fun kv =>
                                  match stringify (snd kv) with
                                  | Some t => Some (quote (fst kv) +:+ ":" +:+ t)
                                  | None => None
                                  end) props)
                +:+ "}")
  end.

(** The text of a frame. *)
Definition frameText (f : Frame) : string := default "" (stringify (encode f)).

(** [JSON.parse] restricted to the texts of the listed frames; any other
    text is taken to be malformed. *)
Definition parseFrames (frames : list Frame) (eventText : string)
  : option JsVal :=
  encode <$> List.find (fun f => String.eqb (frameText f) eventText) frames.

End Json.


(** ** The batch of raw files *)

(** [s.split(',')] *)
Fixpoint splitAtCommas (s : string) : list string :=
  match s with
  | EmptyString => [EmptyString]
  | String c r =>
      if Ascii.eqb c "," then EmptyString :: splitAtCommas r
      else match splitAtCommas r with
           | first :: others => String c first :: others
           | [] => [String c EmptyString]
           end
  end.

(** The promise [fileToBase64] returns.  [readAsDataURL] is the host's
    [FileReader]: [Some result] when the read ends with [onload], [None]
    when it ends with [onerror].  The promise is rejected ([Thrown]) on an
    error, and resolves to [result.split(',')[1]] otherwise, which is
    [undefined] ([None]) for a result without a comma. *)
Definition fileToBase64 (readAsDataURL : File -> option string) (file : File)
  : Outcome (option string) :=
  match readAsDataURL file with
  | Some result => Normal (splitAtCommas result !! 1)
  | None => Thrown
  end.

(** The console of the raw-file entry point. *)
Inductive FileConsoleEntry :=
| LogConvertFiles (files : list File)
| ErrorConvertingFile.

(** An element of the list the raw-file entry point returns: a block, or
    the block built for [file] with [undefined] as its bytes, which happens
    when [fileToBase64] resolves to [undefined]. *)
Inductive FileBlock :=
| BlockOf (block : StrandsContentBlock)
| BlockWithUndefinedBytes (file : File).

(** One turn of the loop over [files]: the [try] block and its [catch]. *)
Definition convertOneFile
    (readAsDataURL : File -> option string)
    (acc : list FileBlock * list FileConsoleEntry) (file : File)
  : list FileBlock * list FileConsoleEntry :=
  match fileToBase64 readAsDataURL file with
  | Normal (Some base64Data) =>
      match convertFileToStrandsContentBlock file base64Data with
      | Some contentBlock => (acc.1 ++ [BlockOf contentBlock], acc.2)
      | None => acc
      end
  | Normal None => (acc.1 ++ [BlockWithUndefinedBytes file], acc.2)
  | Thrown => (acc.1, acc.2 ++ [ErrorConvertingFile])
  end.

Definition convertFilesToStrandsContentBlocks
    (readAsDataURL : File -> option string) (files : list File)
  : list FileBlock * list FileConsoleEntry :=
  fold_left (convertOneFile readAsDataURL) files ([], [LogConvertFiles files]).

(** ** Vocabulary of the statements *)

(** Every code unit of [s] satisfies [p]. *)
Fixpoint allChars (p : ascii -> bool) (s : string) : bool :=
  match s with
  | EmptyString => true
  | String c r => p c && allChars p r
  end.

Definition notLineTerminator (c : ascii) : bool := negb (Js.isLineTerminator c).
Definition notComma (c : ascii) : bool := negb (Ascii.eqb c ",").

(** The text block of a message whose content is not blank. *)
Definition textBlocks (message : UnrecordedMessage) : list StrandsContentBlock :=
  if Js.truthy (Js.trim (content message))
  then [TextBlock (content message)] else [].

(** The blocks of the attachments that resolve, in the order of the
    attachments. *)
Definition attachmentBlocks
    (uploadedFiles : option (list UploadedFileType))
    (base64Cache : option (gmap string string))
    (message : UnrecordedMessage) : list StrandsContentBlock :=
  omap (fun data =>
          match (convertExtraDataToStrandsContentBlock
                   data uploadedFiles base64Cache).1 with
          | Normal contentBlock => contentBlock
          | Thrown => None
          end)
       (default [] (extraData message)).

(** The attachment has an s3 source that no uploaded file resolves, and its
    locator names a member the cache inherits and does not own: reading the
    cache raises the TypeError. *)
Definition hitsPrototypeMember
    (uploadedFiles : option (list UploadedFileType))
    (base64Cache : option (gmap string string))
    (data : ExtraData) : bool :=
  negb (String.eqb (source_type (source data)) "base64")
  && String.eqb (source_type (source data)) "s3"
  && match findUploadedPayload uploadedFiles (source_data (source data)) with
     | Some _ => false
     | None =>
         match cacheLookup base64Cache (source_data (source data)) with
         | Inherited _ => true
         | Entry _ | Undefined => false
         end
     end.

(** Some attachment of the message raises the TypeError. *)
Definition messageThrows
    (uploadedFiles : option (list UploadedFileType))
    (base64Cache : option (gmap string string))
    (message : UnrecordedMessage) : bool :=
  existsb (hitsPrototypeMember uploadedFiles base64Cache)
          (default [] (extraData message)).

Definition isTextBlock (block : StrandsContentBlock) : bool :=
  match block with TextBlock _ => true | _ => false end.

(** The number of image, document and video blocks of a converted message. *)
Definition mediaBlockCount (out : StrandsMessage) : nat :=
  length (List.filter (fun block => negb (isTextBlock block)) (msg_content out)).

(** The payload bytes a block carries; a text block carries none. *)
Definition blockBytes (block : StrandsContentBlock) : option string :=
  match block with
  | TextBlock _ => None
  | ImageBlock _ b | DocumentBlock _ _ b | VideoBlock _ b => Some b
  end.

(** The MIME type is a key of the table, letter case set aside. *)
Definition mimeInTable {A} (table : gmap string A) (mimeType : string) : bool :=
  existsb (fun entry =>
             String.eqb (Js.toLowerCase entry.1) (Js.toLowerCase mimeType))
          (map_to_list table).

(** The text shown for an exception event. *)
Definition errorText (message : option string) : string :=
  "Error: " +:+ match message with
                | Some m => if Js.truthy m then m else "An error occurred"
                | None => "An error occurred"
                end.

Definition withBlockType (t : ContentBlockType) (p : Processor) : Processor :=
  {| currentContentBlockType := t; toolUseBuffer := toolUseBuffer p |}.

Definition usageOf (u : UsagePayload) : Usage :=
  {| inputTokens := JNum (usageInputTokens u);
     outputTokens := JNum (usageOutputTokens u);
     totalTokens := JNum (usageTotalTokens u);
     cacheReadInputTokens :=
       match usageCacheRead u with Some n => JNum n | None => JUndefined end;
     cacheWriteInputTokens :=
       match usageCacheWrite u with Some n => JNum n | None => JUndefined end |}.

(** What [processEvent] does with the frames of the protocol, frame by
    frame: the record returned and the processor left behind.  Lemma
    [processEvent_frame] proves that the code computes this function. *)
Definition frameStep (f : Frame) (p : Processor) : option Output * Processor :=
  match f with
  | MessageStart | MessageStop =>
      (None, {| currentContentBlockType := CBNull; toolUseBuffer := "" |})
  | ContentBlockStart (StartText t) =>
      if Js.truthy t then (Some (textOnly (JStr t)), withBlockType CBText p)
      else (None, p)
  | ContentBlockStart (StartToolUse name) =>
      (Some (traceOnly (JStr ("```" +:+ name +:+ LF))),
       {| currentContentBlockType := CBToolUse; toolUseBuffer := "" |})
  | ContentBlockDelta (DeltaText t) =>
      if Js.truthy t then (Some (textOnly (JStr t)), withBlockType CBText p)
      else (None, p)
  | ContentBlockDelta (DeltaToolUse input) =>
      (Some (traceOnly (JStr input)),
       {| currentContentBlockType := CBToolUse;
          toolUseBuffer := toolUseBuffer p +:+ input |})
  | ContentBlockDelta (DeltaReasoning t) =>
      if Js.truthy t then (Some (traceOnly (JStr t)), withBlockType CBReasoning p)
      else (None, p)
  | ContentBlockStop =>
      (match currentContentBlockType p with
       | CBText => Some (textOnly (JStr LF))
       | CBToolUse => Some (traceOnly (JStr (LF +:+ "```" +:+ LF)))
       | CBReasoning | CBNull => None
       end, withBlockType CBNull p)
  | MetadataFrame u =>
      (Some {| text := JStr ""; trace := None;
               metadata := Some {| usage := usageOf u |} |}, p)
  | ErrorFrame _ message => (Some (textOnly (JStr (errorText message))), p)
  | RedactContent message =>
      (match message with
       | Some m => if Js.truthy m then Some (textOnly (JStr m)) else None
       | None => None
       end, p)
  end.

(** A frame that empties the tool-argument buffer. *)
Definition clearsToolUseBuffer (f : Frame) : bool :=
  match f with
  | MessageStart | MessageStop | ContentBlockStart (StartToolUse _) => true
  | _ => false
  end.

(** The texts [eventTexts] are tool-use delta frames with the inputs
    [inputs], one for one. *)
Definition toolUseDeltas
    (JSON_parse : string -> option JsVal) (eventTexts inputs : list string)
  : Prop :=
  Forall2 (fun eventText input =>
             JSON_parse eventText
             = Some (encode (ContentBlockDelta (DeltaToolUse input))))
          eventTexts inputs.

(** How one call of [processEvent] may change the tool buffer. *)
Definition bufferStep (before after : string) : Prop :=
  after = before \/ after = "" \/ exists appended, after = before +:+ appended.

(** The ways a call of [processEvent] can end, whatever the frame text:
    the value returned and the runtime left behind, from the runtime [rt]. *)
Inductive Effect (rt : Runtime) : option Output -> Runtime -> Prop :=
| EffNone (p : Processor) :
    bufferStep (toolUseBuffer (this rt)) (toolUseBuffer p) ->
    Effect rt None {| this := p; console := console rt |}
| EffTextOnly (t : JsVal) (p : Processor) :
    JsVal.truthy t = true ->
    toolUseBuffer p = toolUseBuffer (this rt) ->
    Effect rt (Some (textOnly t)) {| this := p; console := console rt |}
| EffTraceOnly (t : JsVal) (p : Processor) :
    bufferStep (toolUseBuffer (this rt)) (toolUseBuffer p) ->
    currentContentBlockType p <> CBText ->
    Effect rt (Some (traceOnly t)) {| this := p; console := console rt |}
| EffMetadata (u : Usage) :
    Effect rt (Some {| text := JStr ""; trace := None;
                       metadata := Some {| usage := u |} |}) rt
| EffCaught (p : Processor) :
    bufferStep (toolUseBuffer (this rt)) (toolUseBuffer p) ->
    Effect rt None {| this := p;
                      console := console rt ++ [ErrorProcessingStreamEvent] |}.

(** What a [catch] finds when the [try] block threw from [rt] and left
    [rt']: the console as it was, the buffer one step on. *)
Definition thrownOk (rt rt' : Runtime) : Prop :=
  console rt' = console rt
  /\ bufferStep (toolUseBuffer (this rt)) (toolUseBuffer (this rt')).

(** An [if] block of [processEvent] ends in one of the ways of [Effect], or
    falls through with the runtime untouched. *)
Definition handlerOk (h : M Flow) : Prop :=
  forall rt,
    match h rt with
    | (Normal (Return result), rt') => Effect rt result rt'
    | (Normal FallThrough, rt') => rt' = rt
    | (Thrown, rt') => thrownOk rt rt'
    end.

(** The same for a run of statements that ends with a [return]. *)
Definition statementsOk (m : M (option Output)) : Prop :=
  forall rt,
    match m rt with
    | (Normal result, rt') => Effect rt result rt'
    | (Thrown, rt') => thrownOk rt rt'
    end.

(** The number of attachments of a message. *)
Definition attachmentCount (message : UnrecordedMessage) : nat :=
  length (default [] (extraData message)).

(** The block kinds, as a test on blocks. *)
Definition isImageBlock (block : StrandsContentBlock) : bool :=
  match block with ImageBlock _ _ => true | _ => false end.

Definition isVideoBlock (block : StrandsContentBlock) : bool :=
  match block with VideoBlock _ _ => true | _ => false end.

Definition isDocumentBlock (block : StrandsContentBlock) : bool :=
  match block with DocumentBlock _ _ _ => true | _ => false end.

(** The read of [file] ends with [onload]. *)
Definition readable (readAsDataURL : File -> option string) (file : File) : bool :=
  match readAsDataURL file with Some _ => true | None => false end.

(** The element [fileBlock] of the result was built for [file]. *)
Definition blockFromFile (file : File) (fileBlock : FileBlock) : Prop :=
  match fileBlock with
  | BlockOf block =>
      exists base64Data,
        convertFileToStrandsContentBlock file base64Data = Some block
  | BlockWithUndefinedBytes file' => file' = file
  end.

(** The texts [eventTexts] are the frames [frames], one for one. *)
Definition framesOf
    (JSON_parse : string -> option JsVal) (eventTexts : list string)
    (frames : list Frame) : Prop :=
  Forall2 (fun eventText f => JSON_parse eventText = Some (encode f))
          eventTexts frames.

(** [frameStep] along a list of frames: the records in order and the
    processor at the end. *)
Fixpoint runFrames (frames : list Frame) (p : Processor)
  : list (option Output) * Processor :=
  match frames with
  | [] => ([], p)
  | f :: rest =>
      let step := frameStep f p in
      let run := runFrames rest step.2 in
      (step.1 :: run.1, run.2)
  end.

(** A delta frame that is acted on: a text or reasoning delta with the
    empty string is not. *)
Definition deltaActs (delta : DeltaPayload) : bool :=
  match delta with
  | DeltaText t | DeltaReasoning t => Js.truthy t
  | DeltaToolUse _ => true
  end.

(** What a content-block-stop returns right after the delta [delta]. *)
Definition closingOf (delta : DeltaPayload) : option Output :=
  match delta with
  | DeltaText _ => Some (textOnly (JStr LF))
  | DeltaToolUse _ => Some (traceOnly (JStr (LF +:+ "```" +:+ LF)))
  | DeltaReasoning _ => None
  end.

(** The names of the exception events, in the order [processEvent] tries
    them. *)
Definition errorEventNames : list string :=
  map errorEventName
      [InternalServer; ModelStream; ServiceUnavailable; Throttling; Validation].

(** The first exception event of [streamEvent] that is truthy. *)
Definition firstErrorEvent (streamEvent : list (string * JsVal)) : option JsVal :=
  List.find JsVal.truthy
            (map (fun name => default JUndefined (JsVal.assoc name streamEvent))
                 errorEventNames).

(** The frame kinds tried before the exception events. *)
Definition earlierEventNames : list string :=
  [ "messageStart"; "contentBlockStart"; "contentBlockDelta";
    "contentBlockStop"; "messageStop"; "metadata" ].

(** The runtime after the [catch] block has run with the processor [p]. *)
Definition logged (rt : Runtime) (p : Processor) : Runtime :=
  {| this := p; console := console rt ++ [ErrorProcessingStreamEvent] |}.

(** ** Sample inputs *)

Definition sampleLocator : string := "s3://bucket/picture.png".

Definition sampleRemoteImage : ExtraData :=
  {| data_type := "image";
     data_name := "picture.png";
     source := {| source_type := "s3";
                  mediaType := "image/png";
                  source_data := sampleLocator |} |}.

Definition sampleCache : gmap string string :=
  {[ sampleLocator := "data:image/png;base64,QUJD" ]}.

Definition sampleInlineBitmap : ExtraData :=
  {| data_type := "image";
     data_name := "scan.bmp";
     source := {| source_type := "base64";
                  mediaType := "image/bmp";
                  source_data := "QUJD" |} |}.

Definition sampleInlineEmpty : ExtraData :=
  {| data_type := "file";
     data_name := "empty.txt";
     source := {| source_type := "base64";
                  mediaType := "text/plain";
                  source_data := "" |} |}.

Definition sampleTabFile : File :=
  {| file_name := "a" +:+ TAB +:+ "b.txt"; file_type := "text/plain" |}.

Definition freshProcessor : Processor :=
  {| currentContentBlockType := CBNull; toolUseBuffer := "" |}.

Definition freshRuntime : Runtime := {| this := freshProcessor; console := [] |}.

Definition sampleToolInput : string :=
  "{" +:+ Json.DQ +:+ "a" +:+ Json.DQ +:+ ":1}".

Definition sampleToolFrames : list Frame :=
  [ ContentBlockStart (StartToolUse "X");
    ContentBlockDelta (DeltaToolUse sampleToolInput);
    ContentBlockStop ].

Definition sampleThrottled : Frame := ErrorFrame Throttling (Some "rate limited").

Definition sampleEmptyMessage : Frame := ErrorFrame Throttling (Some "").

Definition sampleStartText : Frame := ContentBlockStart (StartText "Hello").

Definition sampleStartEmptyText : Frame := ContentBlockStart (StartText "").

(** An image whose MIME type names a member of [Object.prototype]. *)
Definition sampleConstructorMime : ExtraData :=
  {| data_type := "image";
     data_name := "picture";
     source := {| source_type := "base64";
                  mediaType := "constructor";
                  source_data := "QUJD" |} |}.

(** An s3 attachment whose locator names a member of [Object.prototype]. *)
Definition samplePrototypeLocator : ExtraData :=
  {| data_type := "image";
     data_name := "picture.png";
     source := {| source_type := "s3";
                  mediaType := "image/png";
                  source_data := "toString" |} |}.

Definition sampleImageMessage : UnrecordedMessage :=
  {| role := "user"; content := "Look";
     extraData := Some [sampleInlineBitmap; sampleInlineEmpty] |}.

Definition sampleUnknownSource : ExtraData :=
  {| data_type := "image";
     data_name := "picture.png";
     source := {| source_type := "S3";
                  mediaType := "image/png";
                  source_data := sampleLocator |} |}.

Definition sampleEmptyUpload : UploadedFileType :=
  {| s3Url := Some sampleLocator;
     base64EncodedData := Some "data:image/png;base64," |}.

Definition samplePlainMessage : UnrecordedMessage :=
  {| role := "user"; content := " Hello "; extraData := Some [sampleInlineEmpty] |}.

Definition samplePngFile : File :=
  {| file_name := "picture.png"; file_type := "image/png" |}.

(** A reader that loads every file but [sampleTabFile]. *)
Definition sampleReader (file : File) : option string :=
  if String.eqb (file_name file) (file_name sampleTabFile) then None
  else Some ("data:" +:+ file_type file +:+ ";base64,QUJD").

(** A reader whose result has no comma. *)
Definition sampleBrokenReader (file : File) : option string := Some "data:".

Definition sampleTextFrames : list Frame :=
  [ ContentBlockStart (StartText "Hel");
    ContentBlockDelta (DeltaText "lo");
    ContentBlockStop ].

Definition sampleUsage : UsagePayload :=
  {| usageInputTokens := "10"; usageOutputTokens := "5";
     usageTotalTokens := "15"; usageCacheRead := None;
     usageCacheWrite := None |}.

Definition sampleRedact : Frame := RedactContent (Some "redacted").

(** A frame with two exception events, the later one first in the text. *)
Definition sampleTwoErrors : JsVal :=
  obj1 "event"
       (JObj [ ("validationException", obj1 "message" (JStr "invalid"));
               ("modelStreamErrorException", obj1 "message" (JStr "stream")) ]).

(** A frame with a message-start and a content-block-stop. *)
Definition sampleStartAndStop : JsVal :=
  obj1 "event"
       (JObj [ ("contentBlockStop", JObj []);
               ("messageStart", obj1 "role" (JStr "assistant")) ]).

(** A tool-use delta whose input is the number 7. *)
Definition sampleNumberInput : JsVal :=
  obj1 "event"
       (obj1 "contentBlockDelta"
             (obj1 "delta" (obj1 "toolUse" (obj1 "input" (JNum "7"))))).

(** [JSON.parse] restricted to the text of one value. *)
Definition parseOnly (v : JsVal) (eventText : string) : option JsVal :=
  if String.eqb (default "" (Json.stringify v)) eventText then Some v else None.

(** ** Properties of the string primitives *)

Lemma truthy_and_trim (s : string) :
  Js.truthy s && Js.truthy (Js.trim s) = Js.truthy (Js.trim s).
Proof. destruct s; reflexivity. Qed.

Lemma truthy_or_empty (s : string) : (if Js.truthy s then s else "") = s.
Proof. destruct s; reflexivity. Qed.

Lemma truthy_true (s : string) : Js.truthy s = true <-> s <> "".
Proof. destruct s; simpl; split; intros H; try done. Qed.

Lemma append_empty_l (b : string) : "" +:+ b = b.
Proof. reflexivity. Qed.

Lemma append_String (c : ascii) (r b : string) :
  String c r +:+ b = String c (r +:+ b).
Proof. reflexivity. Qed.

Lemma afterGreedyComma_no_comma (s : string) :
  allChars notComma s = true -> Js.afterGreedyComma s = None.
Proof.
  induction s as [|c r IH]; simpl; [reflexivity|].
  intros [Hc Hr]%andb_true_iff. rewrite (IH Hr).
  unfold notComma in Hc. apply negb_true_iff in Hc. rewrite Hc.
  destruct (Js.isLineTerminator c); reflexivity.
Qed.

Lemma afterGreedyComma_last (m b : string) :
  allChars notLineTerminator m = true ->
  allChars notComma b = true ->
  Js.afterGreedyComma (m +:+ "," +:+ b) = Some b.
Proof.
  intros Hm Hb. induction m as [|c r IH].
  - rewrite append_empty_l, append_String, append_empty_l. simpl.
    rewrite (afterGreedyComma_no_comma b Hb). reflexivity.
  - simpl in Hm. apply andb_true_iff in Hm as [Hc Hr].
    unfold notLineTerminator in Hc. apply negb_true_iff in Hc.
    rewrite append_String. simpl. rewrite Hc, (IH Hr). reflexivity.
Qed.

Lemma replaceDataPrefix_data_url (m b : string) :
  allChars notLineTerminator m = true ->
  allChars notComma b = true ->
  Js.replaceDataPrefix ("data:" +:+ m +:+ "," +:+ b) = b.
Proof.
  intros Hm Hb. unfold Js.replaceDataPrefix.
  replace (Js.stripPrefix "data:" ("data:" +:+ m +:+ "," +:+ b))
    with (Some (m +:+ "," +:+ b)) by reflexivity.
  rewrite (afterGreedyComma_last m b Hm Hb). reflexivity.
Qed.

Lemma stripPrefix_startsWith (p s : string) :
  Js.startsWith s p = false -> Js.stripPrefix p s = None.
Proof. unfold Js.startsWith. destruct (Js.stripPrefix p s); [discriminate|reflexivity]. Qed.

Lemma replaceDataPrefix_other (s : string) :
  Js.startsWith s "data:" = false -> Js.replaceDataPrefix s = s.
Proof.
  intros H. unfold Js.replaceDataPrefix.
  rewrite (stripPrefix_startsWith _ _ H). reflexivity.
Qed.

Lemma lowerChar_idem (c : ascii) : Js.lowerChar (Js.lowerChar c) = Js.lowerChar c.
Proof. destruct c as [[] [] [] [] [] [] [] []]; vm_compute; reflexivity. Qed.

Lemma toLowerCase_idem (s : string) :
  Js.toLowerCase (Js.toLowerCase s) = Js.toLowerCase s.
Proof.
  induction s as [|c r IH]; simpl; [reflexivity|].
  rewrite lowerChar_idem, IH. reflexivity.
Qed.

(** ** Properties of the resolver and of the converter *)

Lemma find_first_match (l : string) (pre post : list UploadedFileType)
    (f : UploadedFileType) :
  Forall (fun g => s3Url g <> Some l) pre ->
  s3Url f = Some l ->
  findUploadedPayload (Some (pre ++ f :: post)) l = base64EncodedData f.
Proof.
  intros Hpre Hf. unfold findUploadedPayload. simpl.
  induction Hpre as [|g pre Hg _ IH]; simpl.
  - rewrite Hf, String.eqb_refl. reflexivity.
  - destruct (s3Url g) as [url|] eqn:Hurl; [|exact IH].
    destruct (String.eqb url l) eqn:He; [|exact IH].
    apply String.eqb_eq in He. subst. contradiction.
Qed.

Lemma find_no_match (l : string) (files : list UploadedFileType) :
  Forall (fun g => s3Url g <> Some l) files ->
  findUploadedPayload (Some files) l = None.
Proof.
  intros H. unfold findUploadedPayload. simpl.
  induction H as [|g files Hg _ IH]; simpl; [reflexivity|].
  destruct (s3Url g) as [url|] eqn:Hurl; [|exact IH].
  destruct (String.eqb url l) eqn:He; [|exact IH].
  apply String.eqb_eq in He. subst. contradiction.
Qed.

Lemma resolveBase64Data_s3
    (data : ExtraData)
    (uploadedFiles : option (list UploadedFileType))
    (base64Cache : option (gmap string string)) :
  source_type (source data) = "s3" ->
  resolveBase64Data data uploadedFiles base64Cache
  = match findUploadedPayload uploadedFiles (source_data (source data)) with
    | Some payload => Normal (Some (Js.replaceDataPrefix payload))
    | None => cachedPayload base64Cache (source_data (source data))
    end.
Proof. intros H. unfold resolveBase64Data. rewrite H. reflexivity. Qed.

Lemma resolveBase64Data_thrown
    (data : ExtraData)
    (uploadedFiles : option (list UploadedFileType))
    (base64Cache : option (gmap string string)) :
  resolveBase64Data data uploadedFiles base64Cache = Thrown
  <-> hitsPrototypeMember uploadedFiles base64Cache data = true.
Proof.
  unfold resolveBase64Data, hitsPrototypeMember, cachedPayload.
  destruct (String.eqb (source_type (source data)) "base64");
    [split; discriminate|].
  destruct (String.eqb (source_type (source data)) "s3");
    [|split; discriminate].
  destruct (findUploadedPayload uploadedFiles (source_data (source data)));
    [split; discriminate|].
  destruct (cacheLookup base64Cache (source_data (source data)));
    split; intros H; try discriminate H; reflexivity.
Qed.

Ltac resolver_cases :=
  repeat (match goal with
          | |- context [if ?c then _ else _] => destruct c
          end; simpl).

Lemma resolver_thrown
    (data : ExtraData)
    (uploadedFiles : option (list UploadedFileType))
    (base64Cache : option (gmap string string)) :
  ((convertExtraDataToStrandsContentBlock data uploadedFiles base64Cache).1
   = Thrown
   <-> hitsPrototypeMember uploadedFiles base64Cache data = true)
  /\ ((convertExtraDataToStrandsContentBlock data uploadedFiles base64Cache).1
      = Thrown ->
      (convertExtraDataToStrandsContentBlock data uploadedFiles base64Cache).2
      = []).
Proof.
  rewrite <- resolveBase64Data_thrown.
  unfold convertExtraDataToStrandsContentBlock.
  destruct (resolveBase64Data data uploadedFiles base64Cache) as [[b|]|];
    simpl.
  - destruct (Js.truthy b); simpl; resolver_cases;
      (split; [split|]; intros H; discriminate H).
  - split; [split|]; intros H; discriminate H.
  - split; [split|]; reflexivity.
Qed.

Lemma fold_pushExtraData_thrown
    (uploadedFiles : option (list UploadedFileType))
    (base64Cache : option (gmap string string))
    (extra : list ExtraData) (console : list ConsoleEntry) :
  fold_left (pushExtraData uploadedFiles base64Cache) extra (Thrown, console)
  = (Thrown, console).
Proof. induction extra as [|data extra IH]; [reflexivity | exact IH]. Qed.

Lemma fold_pushExtraData_normal
    (uploadedFiles : option (list UploadedFileType))
    (base64Cache : option (gmap string string))
    (extra : list ExtraData) :
  existsb (hitsPrototypeMember uploadedFiles base64Cache) extra = false ->
  forall blocks console,
    fold_left (pushExtraData uploadedFiles base64Cache) extra
              (Normal blocks, console)
    = (Normal (blocks
               ++ omap (fun data =>
                          match (convertExtraDataToStrandsContentBlock
                                   data uploadedFiles base64Cache).1 with
                          | Normal contentBlock => contentBlock
                          | Thrown => None
                          end) extra),
       console
       ++ concat (map (fun data =>
                         (convertExtraDataToStrandsContentBlock
                            data uploadedFiles base64Cache).2) extra)).
Proof.
  induction extra as [|data extra IH]; intros Hno blocks console.
  - simpl. rewrite !app_nil_r. reflexivity.
  - cbn [existsb] in Hno. apply orb_false_iff in Hno as [Hdata Hextra].
    cbn [fold_left map concat omap list_omap].
    unfold pushExtraData at 2. cbn [fst snd].
    destruct (proj1 (resolver_thrown data uploadedFiles base64Cache))
      as [Hthrown _].
    destruct (convertExtraDataToStrandsContentBlock data uploadedFiles base64Cache)
      as [[[block|]|] warnings]; cbn [fst snd] in *.
    + rewrite (IH Hextra). rewrite <- !app_assoc. reflexivity.
    + rewrite (IH Hextra). rewrite <- !app_assoc. reflexivity.
    + rewrite (Hthrown eq_refl) in Hdata. discriminate Hdata.
Qed.

Lemma fold_pushExtraData_throws
    (uploadedFiles : option (list UploadedFileType))
    (base64Cache : option (gmap string string))
    (extra : list ExtraData) :
  existsb (hitsPrototypeMember uploadedFiles base64Cache) extra = true ->
  forall acc,
    (fold_left (pushExtraData uploadedFiles base64Cache) extra acc).1 = Thrown.
Proof.
  induction extra as [|data extra IH]; intros Hsome acc; [discriminate Hsome|].
  cbn [existsb] in Hsome. cbn [fold_left].
  destruct (hitsPrototypeMember uploadedFiles base64Cache data) eqn:Hdata.
  - destruct acc as [[blocks|] console].
    + unfold pushExtraData at 2. cbn [fst snd].
      apply (proj1 (resolver_thrown data uploadedFiles base64Cache)) in Hdata.
      destruct (convertExtraDataToStrandsContentBlock
                  data uploadedFiles base64Cache) as [r warnings].
      cbn [fst] in Hdata. subst r.
      rewrite fold_pushExtraData_thrown. reflexivity.
    + unfold pushExtraData at 2. cbn [fst].
      rewrite fold_pushExtraData_thrown. reflexivity.
  - apply IH. exact Hsome.
Qed.

(** The message the callback returns when no attachment throws. *)
Lemma convertMessage_normal
    (uploadedFiles : option (list UploadedFileType))
    (base64Cache : option (gmap string string))
    (message : UnrecordedMessage) :
  messageThrows uploadedFiles base64Cache message = false ->
  convertMessage uploadedFiles base64Cache message
  = (Normal
       {| msg_role := role message;
          msg_content :=
            match textBlocks message
                  ++ attachmentBlocks uploadedFiles base64Cache message with
            | [] => [TextBlock (content message)]
            | blocks => blocks
            end |},
     concat (map (fun data =>
                    (convertExtraDataToStrandsContentBlock
                       data uploadedFiles base64Cache).2)
                 (default [] (extraData message)))).
Proof.
  unfold messageThrows, convertMessage, textBlocks, attachmentBlocks.
  rewrite truthy_and_trim, truthy_or_empty.
  set (blocks0 := if Js.truthy (Js.trim (content message))
                  then [TextBlock (content message)] else []).
  destruct (extraData message) as [extra|]; cbn [default].
  - intros Hno. rewrite (fold_pushExtraData_normal _ _ _ Hno). cbn [app].
    destruct (blocks0 ++ _); reflexivity.
  - intros _. cbn [omap list_omap map concat]. rewrite app_nil_r.
    destruct blocks0; reflexivity.
Qed.

Lemma convertMessage_throws
    (uploadedFiles : option (list UploadedFileType))
    (base64Cache : option (gmap string string))
    (message : UnrecordedMessage) :
  messageThrows uploadedFiles base64Cache message = true ->
  (convertMessage uploadedFiles base64Cache message).1 = Thrown.
Proof.
  unfold messageThrows, convertMessage.
  destruct (extraData message) as [extra|]; cbn [default];
    [|discriminate].
  intros Hsome.
  pose proof (fold_pushExtraData_throws _ _ _ Hsome
                (Normal (if Js.truthy (content message)
                            && Js.truthy (Js.trim (content message))
                         then [TextBlock (content message)] else []), []))
    as H.
  destruct (fold_left _ extra _) as [r console]. cbn [fst] in H. subst r.
  reflexivity.
Qed.

Lemma mapMessages_normal
    (uploadedFiles : option (list UploadedFileType))
    (base64Cache : option (gmap string string))
    (messages : list UnrecordedMessage) :
  existsb (messageThrows uploadedFiles base64Cache) messages = false ->
  mapMessages (convertMessage uploadedFiles base64Cache) messages
  = (Normal (map (fun message =>
                    {| msg_role := role message;
                       msg_content :=
                         match textBlocks message
                               ++ attachmentBlocks uploadedFiles base64Cache
                                                   message with
                         | [] => [TextBlock (content message)]
                         | blocks => blocks
                         end |}) messages),
     concat (map (fun message =>
                    concat (map (fun data =>
                                   (convertExtraDataToStrandsContentBlock
                                      data uploadedFiles base64Cache).2)
                                (default [] (extraData message))))
                 messages)).
Proof.
  induction messages as [|message messages IH]; intros Hno; [reflexivity|].
  cbn [existsb] in Hno. apply orb_false_iff in Hno as [Hm Hrest].
  cbn [mapMessages]. rewrite (convertMessage_normal _ _ _ Hm), (IH Hrest).
  reflexivity.
Qed.

Lemma mapMessages_throws
    (uploadedFiles : option (list UploadedFileType))
    (base64Cache : option (gmap string string))
    (messages : list UnrecordedMessage) :
  existsb (messageThrows uploadedFiles base64Cache) messages = true ->
  (mapMessages (convertMessage uploadedFiles base64Cache) messages).1 = Thrown.
Proof.
  induction messages as [|message messages IH]; intros Hsome;
    [discriminate Hsome|].
  cbn [existsb] in Hsome. cbn [mapMessages].
  destruct (messageThrows uploadedFiles base64Cache message) eqn:Hm.
  - pose proof (convertMessage_throws _ _ _ Hm) as H.
    destruct (convertMessage uploadedFiles base64Cache message) as [r console].
    cbn [fst] in H. subst r. reflexivity.
  - rewrite (convertMessage_normal _ _ _ Hm).
    specialize (IH Hsome).
    destruct (mapMessages _ messages) as [r console]. cbn [fst] in IH. subst r.
    reflexivity.
Qed.

Lemma convertToStrandsFormat_result
    (messages : list UnrecordedMessage)
    (uploadedFiles : option (list UploadedFileType))
    (base64Cache : option (gmap string string)) :
  convertToStrandsFormat messages uploadedFiles base64Cache
  = ((mapMessages (convertMessage uploadedFiles base64Cache) messages).1,
     LogConvertToStrandsFormat uploadedFiles base64Cache
     :: (mapMessages (convertMessage uploadedFiles base64Cache) messages).2).
Proof.
  unfold convertToStrandsFormat.
  destruct (mapMessages _ messages). reflexivity.
Qed.

(** C1: the converter either ends with the TypeError of the cache lookup,
    which happens exactly when some attachment has an s3 source that no
    uploaded file resolves and a locator naming a member the cache inherits
    without owning it, or returns one message for each input message, and
    every message it produces keeps the role and has a content list that
    is not empty: the text block of a non-blank content followed by the
    blocks of the attachments that resolve, and, when that list is empty,
    the single text block holding the original content. *)
Theorem convertToStrandsFormat_content_nonempty
    (messages : list UnrecordedMessage)
    (uploadedFiles : option (list UploadedFileType))
    (base64Cache : option (gmap string string)) :
  ((convertToStrandsFormat messages uploadedFiles base64Cache).1 = Thrown
   <-> existsb (messageThrows uploadedFiles base64Cache) messages = true)
  /\ forall out,
       (convertToStrandsFormat messages uploadedFiles base64Cache).1
       = Normal out ->
       Forall2
         (fun message produced =>
            msg_role produced = role message
            /\ msg_content produced <> []
            /\ msg_content produced
               = match textBlocks message
                       ++ attachmentBlocks uploadedFiles base64Cache message with
                 | [] => [TextBlock (content message)]
                 | blocks => blocks
                 end)
         messages out.
Proof.
  rewrite convertToStrandsFormat_result. cbn [fst].
  destruct (existsb (messageThrows uploadedFiles base64Cache) messages)
    eqn:Hany.
  - rewrite (mapMessages_throws _ _ _ Hany).
    split; [split; reflexivity | discriminate].
  - rewrite (mapMessages_normal _ _ _ Hany). cbn [fst].
    split; [split; discriminate|].
    intros out H. inversion H. subst out. clear.
    induction messages as [|message messages IH]; simpl; constructor;
      [|exact IH].
    split; [reflexivity|]. split; [|reflexivity].
    destruct (textBlocks message ++ _); discriminate.
Qed.

Lemma convertToStrandsFormat_content_nonempty_witness :
  exists out,
    (convertToStrandsFormat [sampleImageMessage] None None).1 = Normal out
    /\ Forall2
         (fun message produced =>
            msg_role produced = role message
            /\ msg_content produced <> []
            /\ msg_content produced
               = match textBlocks message
                       ++ attachmentBlocks None None message with
                 | [] => [TextBlock (content message)]
                 | blocks => blocks
                 end)
         [sampleImageMessage] out.
Proof.
  eexists. split; [vm_compute; reflexivity|].
  apply (proj2 (convertToStrandsFormat_content_nonempty
                  [sampleImageMessage] None None)).
  vm_compute. reflexivity.
Defined.

Lemma lookup_not_in_table {A} (table : gmap string A) (mimeType : string) :
  mimeInTable table mimeType = false ->
  table !! Js.toLowerCase mimeType = None.
Proof.
  intros H. destruct (table !! Js.toLowerCase mimeType) as [fmt|] eqn:Hl;
    [|reflexivity].
  apply elem_of_map_to_list in Hl.
  assert (mimeInTable table mimeType = true) as Ht; [|congruence].
  apply existsb_exists. exists (Js.toLowerCase mimeType, fmt). split.
  - apply list_elem_of_In. exact Hl.
  - simpl. rewrite toLowerCase_idem. apply String.eqb_refl.
Qed.

Lemma cachedPayload_cases
    (base64Cache : option (gmap string string)) (locator : string) :
  (forall cache value,
      base64Cache = Some cache -> cache !! locator = Some value ->
      cachedPayload base64Cache locator
      = Normal (Some (Js.replaceDataPrefix value)))
  /\ (base64Cache = None -> cachedPayload base64Cache locator = Normal None)
  /\ (forall cache,
         base64Cache = Some cache -> cache !! locator = None ->
         cachedPayload base64Cache locator
         = if isPrototypeMember locator then Thrown else Normal None).
Proof.
  unfold cachedPayload, cacheLookup, readProperty. repeat split.
  - intros cache value -> ->. reflexivity.
  - intros ->. reflexivity.
  - intros cache -> ->. destruct (isPrototypeMember locator); reflexivity.
Qed.

(** C5: for an attachment with an s3 source the bytes come from the first
    uploaded-file record whose locator is the source's locator, when that
    record has a payload, and from reading the cache at the locator
    otherwise; the data-URL prefix of the value found is removed, and the
    block that is produced carries the value so obtained.  Reading the
    cache gives the entry of the locator when it has one, nothing when
    there is no cache or no entry, and the TypeError when the locator names
    an inherited member.  A cache value data:image/png;base64,QUJD gives
    the bytes QUJD. *)
Theorem resolve_remote_reference
    (data : ExtraData)
    (uploadedFiles : option (list UploadedFileType))
    (base64Cache : option (gmap string string)) :
  source_type (source data) = "s3" ->
  let locator := source_data (source data) in
  let noRecord :=
    uploadedFiles = None
    \/ exists files, uploadedFiles = Some files
                     /\ Forall (fun g => s3Url g <> Some locator) files in
  (forall pre f post payload,
      uploadedFiles = Some (pre ++ f :: post) ->
      Forall (fun g => s3Url g <> Some locator) pre ->
      s3Url f = Some locator ->
      base64EncodedData f = Some payload ->
      resolveBase64Data data uploadedFiles base64Cache
      = Normal (Some (Js.replaceDataPrefix payload)))
  /\ (forall pre f post,
         uploadedFiles = Some (pre ++ f :: post) ->
         Forall (fun g => s3Url g <> Some locator) pre ->
         s3Url f = Some locator ->
         base64EncodedData f = None ->
         resolveBase64Data data uploadedFiles base64Cache
         = cachedPayload base64Cache locator)
  /\ (noRecord ->
      resolveBase64Data data uploadedFiles base64Cache
      = cachedPayload base64Cache locator)
  /\ ((forall cache value,
          base64Cache = Some cache -> cache !! locator = Some value ->
          cachedPayload base64Cache locator
          = Normal (Some (Js.replaceDataPrefix value)))
      /\ (base64Cache = None ->
          cachedPayload base64Cache locator = Normal None)
      /\ (forall cache,
             base64Cache = Some cache -> cache !! locator = None ->
             cachedPayload base64Cache locator
             = if isPrototypeMember locator then Thrown else Normal None))
  /\ (forall block,
         (convertExtraDataToStrandsContentBlock data uploadedFiles base64Cache).1
         = Normal (Some block) ->
         resolveBase64Data data uploadedFiles base64Cache
         = Normal (blockBytes block))
  /\ (forall bytes,
         resolveBase64Data data uploadedFiles base64Cache
         = Normal (Some bytes) ->
         bytes <> "" ->
         data_type data = "image" \/ data_type data = "file"
         \/ data_type data = "video" ->
         exists block,
           convertExtraDataToStrandsContentBlock data uploadedFiles base64Cache
           = (Normal (Some block), [])
           /\ blockBytes block = Some bytes)
  /\ (forall mime payload,
         allChars notLineTerminator mime = true ->
         allChars notComma payload = true ->
         Js.replaceDataPrefix ("data:" +:+ mime +:+ "," +:+ payload) = payload)
  /\ (forall cache,
         base64Cache = Some cache ->
         cache !! locator = Some "data:image/png;base64,QUJD" ->
         noRecord ->
         resolveBase64Data data uploadedFiles base64Cache
         = Normal (Some "QUJD")).
Proof.
  intros Hs3 locator noRecord.
  pose proof (resolveBase64Data_s3 data uploadedFiles base64Cache Hs3) as Hres.
  fold locator in Hres.
  assert (noRecord -> findUploadedPayload uploadedFiles locator = None) as Hnone.
  { intros [->|[files [-> Hall]]]; [reflexivity|].
    apply find_no_match. exact Hall. }
  split; [|split; [|split; [|split; [|split; [|split; [|split]]]]]].
  - intros pre f post payload -> Hpre Hf Hp.
    rewrite Hres, (find_first_match _ _ _ _ Hpre Hf), Hp. reflexivity.
  - intros pre f post -> Hpre Hf Hp.
    rewrite Hres, (find_first_match _ _ _ _ Hpre Hf), Hp. reflexivity.
  - intros Hno. rewrite Hres, (Hnone Hno). reflexivity.
  - apply cachedPayload_cases.
  - intros block. unfold convertExtraDataToStrandsContentBlock.
    destruct (resolveBase64Data data uploadedFiles base64Cache) as [[b|]|];
      [|discriminate|discriminate].
    destruct (Js.truthy b); simpl; [|discriminate].
    resolver_cases; intros H; inversion H; reflexivity.
  - intros bytes Hbytes Hne Hkind.
    unfold convertExtraDataToStrandsContentBlock. rewrite Hbytes.
    apply truthy_true in Hne. rewrite Hne. simpl.
    destruct Hkind as [->|[->| ->]]; simpl; eexists; split; reflexivity.
  - intros mime payload. apply replaceDataPrefix_data_url.
  - intros cache Hcache Hc Hno.
    rewrite Hres, (Hnone Hno).
    rewrite (proj1 (cachedPayload_cases base64Cache locator) cache _ Hcache Hc).
    reflexivity.
Qed.

Lemma resolve_remote_reference_witness :
  source_type (source sampleRemoteImage) = "s3"
  /\ resolveBase64Data sampleRemoteImage None (Some sampleCache)
     = Normal (Some "QUJD").
Proof.
  split; [reflexivity|].
  apply (resolve_remote_reference sampleRemoteImage None (Some sampleCache)
           eq_refl)
    with (cache := sampleCache).
  - reflexivity.
  - vm_compute. reflexivity.
  - left. reflexivity.
Defined.

(** Unmapped MIME types that give an undefined format: when the bytes of an
    attachment resolve and its MIME type, in lower case, is neither a key of the table
    of its kind nor the name of a member of [Object.prototype], the
    resolver gives a block of that kind with an undefined format and writes
    no diagnostic. *)
Lemma unmapped_mime_keeps_block
    (data : ExtraData)
    (uploadedFiles : option (list UploadedFileType))
    (base64Cache : option (gmap string string))
    (base64Data : string) :
  resolveBase64Data data uploadedFiles base64Cache = Normal (Some base64Data) ->
  base64Data <> "" ->
  isPrototypeMember (Js.toLowerCase (mediaType (source data))) = false ->
  (data_type data = "image" ->
   mimeInTable imageFormatMap (mediaType (source data)) = false ->
   convertExtraDataToStrandsContentBlock data uploadedFiles base64Cache
   = (Normal (Some (ImageBlock Undefined base64Data)), []))
  /\ (data_type data = "file" ->
      mimeInTable documentFormatMap (mediaType (source data)) = false ->
      convertExtraDataToStrandsContentBlock data uploadedFiles base64Cache
      = (Normal (Some (DocumentBlock Undefined (data_name data) base64Data)),
         []))
  /\ (data_type data = "video" ->
      mimeInTable videoFormatMap (mediaType (source data)) = false ->
      convertExtraDataToStrandsContentBlock data uploadedFiles base64Cache
      = (Normal (Some (VideoBlock Undefined base64Data)), [])).
Proof.
  intros Hres Hne Hproto. apply truthy_true in Hne.
  unfold convertExtraDataToStrandsContentBlock. rewrite Hres, Hne. simpl.
  repeat split; intros Hkind Hmime; rewrite Hkind; simpl.
  - unfold getImageFormatFromMimeType, readProperty.
    rewrite (lookup_not_in_table _ _ Hmime), Hproto. reflexivity.
  - unfold getDocumentFormatFromMimeType, readProperty.
    rewrite (lookup_not_in_table _ _ Hmime), Hproto. reflexivity.
  - unfold getVideoFormatFromMimeType, readProperty.
    rewrite (lookup_not_in_table _ _ Hmime), Hproto. reflexivity.
Qed.

(** C6 fails on the code: the bytes of the attachment resolve and its MIME
    type constructor is a key of no table, yet the format of the block is
    not undefined: it is the member the table object inherits under that
    name. *)
Theorem unmapped_mime_inherited_format :
  resolveBase64Data sampleConstructorMime None None = Normal (Some "QUJD")
  /\ mimeInTable imageFormatMap (mediaType (source sampleConstructorMime))
     = false
  /\ convertExtraDataToStrandsContentBlock sampleConstructorMime None None
     = (Normal (Some (ImageBlock (Inherited "constructor") "QUJD")), [])
  /\ @Inherited ImageFormat "constructor" <> Undefined.
Proof.
  split; [reflexivity|]. split; [vm_compute; reflexivity|].
  split; [vm_compute; reflexivity|]. discriminate.
Qed.

(** C10: an attachment whose source is inline with the empty string as data
    gives no block, and the diagnostic of a missing payload is written. *)
Theorem inline_empty_dropped
    (data : ExtraData)
    (uploadedFiles : option (list UploadedFileType))
    (base64Cache : option (gmap string string)) :
  source_type (source data) = "base64" ->
  source_data (source data) = "" ->
  convertExtraDataToStrandsContentBlock data uploadedFiles base64Cache
  = (Normal None, [WarnNoBase64Data data]).
Proof.
  intros Htype Hdata.
  unfold convertExtraDataToStrandsContentBlock, resolveBase64Data.
  rewrite Htype, Hdata. reflexivity.
Qed.

Lemma inline_empty_dropped_witness :
  source_type (source sampleInlineEmpty) = "base64"
  /\ source_data (source sampleInlineEmpty) = ""
  /\ convertExtraDataToStrandsContentBlock sampleInlineEmpty None None
     = (Normal None, [WarnNoBase64Data sampleInlineEmpty]).
Proof.
  split; [reflexivity|]. split; [reflexivity|].
  apply (inline_empty_dropped sampleInlineEmpty None None); reflexivity.
Defined.

(** ** Properties of the raw-file entry point *)

Lemma replaceOutsideFileNameClass_length (s : string) :
  String.length (Js.replaceOutsideFileNameClass s) = String.length s.
Proof. induction s as [|c r IH]; simpl; [reflexivity|]. rewrite IH. reflexivity. Qed.

Lemma replaceOutsideFileNameClass_get (s : string) (i : nat) (c : ascii) :
  String.get i s = Some c ->
  String.get i (Js.replaceOutsideFileNameClass s)
  = Some (if Js.inFileNameClass c then c else "X"%char).
Proof.
  revert i. induction s as [|a r IH]; intros i; simpl; [discriminate|].
  destruct i as [|i]; [|apply IH].
  intros H. inversion H. reflexivity.
Qed.

Lemma inFileNameClass_spec (c : ascii) :
  Js.inFileNameClass c = Spec.inNameSet c || Js.isWhiteSpace c.
Proof. destruct c as [[] [] [] [] [] [] [] []]; vm_compute; reflexivity. Qed.

(** C8, as the specification words it, fails: a tab in the file name is not
    replaced. *)
Lemma document_name_counterexample :
  exists format name,
    convertFileToStrandsContentBlock sampleTabFile "QUJD"
    = Some (DocumentBlock format name "QUJD")
    /\ name = "a" +:+ TAB +:+ "bXtxt"
    /\ Spec.sanitizedName (file_name sampleTabFile) = "aXbXtxt"
    /\ name <> Spec.sanitizedName (file_name sampleTabFile).
Proof.
  exists (Entry txt), ("a" +:+ TAB +:+ "bXtxt").
  repeat split; try (vm_compute; reflexivity).
  vm_compute. discriminate.
Qed.

(** C8, amended: a raw file whose MIME type starts with neither image/ nor
    video/ gives a document block with the payload handed in and a name as
    long as the file name, in which a letter, a digit, a hyphen, a
    parenthesis, a square bracket and every white-space character (the
    space, and also TAB, LF, VT, FF, CR and NBSP) is kept and every other
    character is the letter X. *)
Theorem document_name_sanitized (file : File) (base64Data : string) :
  Js.startsWith (file_type file) "image/" = false ->
  Js.startsWith (file_type file) "video/" = false ->
  exists name,
    convertFileToStrandsContentBlock file base64Data
    = Some (DocumentBlock (getDocumentFormatFromMimeType (file_type file))
                          name base64Data)
    /\ String.length name = String.length (file_name file)
    /\ forall i c,
         String.get i (file_name file) = Some c ->
         String.get i name
         = Some (if Spec.inNameSet c || Js.isWhiteSpace c then c else "X"%char).
Proof.
  intros Himage Hvideo.
  exists (Js.replaceOutsideFileNameClass (file_name file)).
  unfold convertFileToStrandsContentBlock. rewrite Himage, Hvideo.
  split; [reflexivity|]. split.
  - apply replaceOutsideFileNameClass_length.
  - intros i c Hget. rewrite <- inFileNameClass_spec.
    apply replaceOutsideFileNameClass_get. exact Hget.
Qed.

Lemma document_name_sanitized_witness :
  Js.startsWith (file_type sampleTabFile) "image/" = false
  /\ Js.startsWith (file_type sampleTabFile) "video/" = false
  /\ exists name,
       convertFileToStrandsContentBlock sampleTabFile "QUJD"
       = Some (DocumentBlock
                 (getDocumentFormatFromMimeType (file_type sampleTabFile))
                 name "QUJD")
       /\ String.length name = String.length (file_name sampleTabFile)
       /\ forall i c,
            String.get i (file_name sampleTabFile) = Some c ->
            String.get i name
            = Some (if Spec.inNameSet c || Js.isWhiteSpace c
                    then c else "X"%char).
Proof.
  split; [reflexivity|]. split; [reflexivity|].
  apply (document_name_sanitized sampleTabFile "QUJD"); reflexivity.
Defined.

(** ** Properties of the stream processor *)

Lemma processEvent_parsed
    (JSON_parse : string -> option JsVal) (eventText : string) (v : JsVal)
    (rt : Runtime) :
  JSON_parse eventText = Some v ->
  processEvent JSON_parse eventText rt
  = tryCatch (processParsedEvent v)
             (consoleWrite ErrorProcessingStreamEvent ;; ret None) rt.
Proof.
  intros H. unfold processEvent, tryCatch, processEventBody, bind.
  rewrite H. reflexivity.
Qed.

Lemma processEvent_frame
    (JSON_parse : string -> option JsVal) (eventText : string) (f : Frame)
    (rt : Runtime) :
  JSON_parse eventText = Some (encode f) ->
  processEvent JSON_parse eventText rt
  = (Normal (frameStep f (this rt)).1,
     {| this := (frameStep f (this rt)).2; console := console rt |}).
Proof.
  intros H. rewrite (processEvent_parsed _ _ _ _ H).
  destruct rt as [[kind buffer] out].
  destruct f as [|[t|name]|[t|input|t]| | |[i o tot [r|] [w|]]|k [m|]|[m|]];
    try reflexivity;
    try (destruct t; reflexivity);
    try (destruct kind; reflexivity);
    try (destruct k; try destruct m; reflexivity);
    try (destruct m; reflexivity).
Qed.

(** A TypeError raised after [JSON.parse] has succeeded is caught as well:
    the frame text null parses to [null], whose [event] cannot be read. *)
Example processEvent_null_frame :
  processEvent (fun _ => Some JNull) "null" freshRuntime
  = (Normal None,
     {| this := freshProcessor; console := [ErrorProcessingStreamEvent] |}).
Proof. reflexivity. Qed.

Lemma processEvents_cons
    (JSON_parse : string -> option JsVal) (eventText : string)
    (rest : list string) (result : option Output) (rt rt' : Runtime) :
  processEvent JSON_parse eventText rt = (Normal result, rt') ->
  processEvents JSON_parse (eventText :: rest) rt
  = match processEvents JSON_parse rest rt' with
    | (Normal results, rt'') => (Normal (result :: results), rt'')
    | (Thrown, rt'') => (Thrown, rt'')
    end.
Proof.
  intros H. simpl. unfold bind. rewrite H.
  destruct (processEvents JSON_parse rest rt') as [[results|] rt'']; reflexivity.
Qed.

Section StreamProcessor.

Variable JSON_parse : string -> option JsVal.

Lemma processEvents_toolUseDeltas (eventTexts inputs rest : list string) :
  toolUseDeltas JSON_parse eventTexts inputs ->
  forall (buffer : string) (kind : ContentBlockType) (out : list ConsoleEntry),
    inputs <> [] \/ kind = CBToolUse ->
    processEvents JSON_parse (eventTexts ++ rest)
      {| this := {| currentContentBlockType := kind; toolUseBuffer := buffer |};
         console := out |}
    = match processEvents JSON_parse rest
              {| this := {| currentContentBlockType := CBToolUse;
                            toolUseBuffer :=
                              fold_left String.append inputs buffer |};
                 console := out |} with
      | (Normal results, rt') =>
          (Normal (map (fun input => Some (traceOnly (JStr input))) inputs
                   ++ results), rt')
      | (Thrown, rt') => (Thrown, rt')
      end.
Proof.
  induction 1 as [|eventText input eventTexts inputs Hparse _ IH];
    intros buffer kind out Hkind.
  - destruct Hkind as [Hne| ->]; [contradiction|]. simpl.
    destruct (processEvents JSON_parse rest _) as [[results|] rt']; reflexivity.
  - rewrite <- app_comm_cons.
    rewrite (processEvents_cons _ _ _ _ _ _ (processEvent_frame _ _ _ _ Hparse)).
    simpl. rewrite IH by (right; reflexivity). simpl.
    destruct (processEvents JSON_parse rest _) as [[results|] rt']; reflexivity.
Qed.

(** C2: whatever the processor holds, in particular in state none, the
    frames content-block-start (tool-use named X), content-block-delta
    (tool-use with input s) and content-block-stop give, in this order, the
    records with empty text and the traces ```X, s and the closing fence,
    each on a line of its own as the code writes them, and leave the block
    kind at none. *)
Theorem tool_use_round_trip
    (X s startText deltaText stopText : string) (rt : Runtime) :
  JSON_parse startText = Some (encode (ContentBlockStart (StartToolUse X))) ->
  JSON_parse deltaText = Some (encode (ContentBlockDelta (DeltaToolUse s))) ->
  JSON_parse stopText = Some (encode ContentBlockStop) ->
  exists rt',
    processEvents JSON_parse [startText; deltaText; stopText] rt
    = (Normal [ Some {| text := JStr ""; trace := Some (JStr ("```" +:+ X +:+ LF));
                        metadata := None |};
                Some {| text := JStr ""; trace := Some (JStr s);
                        metadata := None |};
                Some {| text := JStr "";
                        trace := Some (JStr (LF +:+ "```" +:+ LF));
                        metadata := None |} ], rt')
    /\ currentContentBlockType (this rt') = CBNull
    /\ toolUseBuffer (this rt') = s
    /\ console rt' = console rt.
Proof.
  intros Hstart Hdelta Hstop.
  eexists. split.
  - rewrite (processEvents_cons _ _ _ _ _ _
               (processEvent_frame _ _ _ _ Hstart)).
    rewrite (processEvents_cons _ _ _ _ _ _
               (processEvent_frame _ _ _ _ Hdelta)).
    rewrite (processEvents_cons _ _ _ _ _ _
               (processEvent_frame _ _ _ _ Hstop)).
    reflexivity.
  - repeat split.
Qed.

(** C3: [processEvent] never throws: on every text and in every state it
    returns a record or null; on a text that [JSON.parse] rejects it returns
    null and leaves the block kind and the tool buffer as they were. *)
Theorem processEvent_never_throws (eventText : string) (rt : Runtime) :
  exists result rt',
    processEvent JSON_parse eventText rt = (Normal result, rt')
    /\ (JSON_parse eventText = None -> result = None /\ this rt' = this rt).
Proof.
  unfold processEvent, tryCatch.
  destruct (processEventBody JSON_parse eventText rt) as [[result|] rt'] eqn:Hbody.
  - exists result, rt'. split; [reflexivity|].
    intros Hparse. unfold processEventBody, bind in Hbody.
    rewrite Hparse in Hbody. discriminate Hbody.
  - eexists _, _. split; [reflexivity|].
    intros Hparse. unfold processEventBody, bind in Hbody.
    rewrite Hparse in Hbody. inversion Hbody. split; reflexivity.
Qed.

(** C4, amended: a frame with one of the five exception events gives the
    record whose text is Error: followed by the message of the event, or by
    An error occurred when the event has no message or an empty one; the
    processor and the console stay as they were. *)
Theorem error_frame_text
    (kind : ErrorKind) (message : option string) (eventText : string)
    (rt : Runtime) :
  JSON_parse eventText = Some (encode (ErrorFrame kind message)) ->
  processEvent JSON_parse eventText rt
  = (Normal (Some {| text :=
                       JStr ("Error: " +:+
                             match message with
                             | Some m => if Js.truthy m then m
                                         else "An error occurred"
                             | None => "An error occurred"
                             end);
                     trace := None; metadata := None |}), rt).
Proof.
  intros H. rewrite (processEvent_frame _ _ _ _ H).
  destruct rt as [p out]. reflexivity.
Qed.

(** C7, amended: a content-block-start frame whose start payload is a text
    that is not empty sets the block kind to text, leaves the tool buffer
    and the console alone, and returns the record whose text is the start
    text. *)
Theorem content_block_start_text
    (startText eventText : string) (rt : Runtime) :
  JSON_parse eventText
  = Some (encode (ContentBlockStart (StartText startText))) ->
  startText <> "" ->
  processEvent JSON_parse eventText rt
  = (Normal (Some {| text := JStr startText; trace := None; metadata := None |}),
     {| this := {| currentContentBlockType := CBText;
                   toolUseBuffer := toolUseBuffer (this rt) |};
        console := console rt |}).
Proof.
  intros H Hne. rewrite (processEvent_frame _ _ _ _ H).
  apply truthy_true in Hne. simpl. rewrite Hne. reflexivity.
Qed.

(** C9: a content-block-stop frame sets the block kind to none and leaves
    the tool buffer as it is.  So after the frames of a tool-use block (its
    start, its deltas, its stop) the buffer holds the inputs of the deltas,
    appended in order.  The buffer is emptied by the frames
    content-block-start (tool-use), message-start and message-stop and by
    [reset]; every other frame leaves it alone, but for a tool-use delta,
    which appends its input. *)
Theorem content_block_stop_keeps_tool_buffer :
  (forall eventText rt,
      JSON_parse eventText = Some (encode ContentBlockStop) ->
      exists result,
        processEvent JSON_parse eventText rt
        = (Normal result,
           {| this := {| currentContentBlockType := CBNull;
                         toolUseBuffer := toolUseBuffer (this rt) |};
              console := console rt |}))
  /\ (forall name inputs startText deltaTexts stopText rt,
         JSON_parse startText
         = Some (encode (ContentBlockStart (StartToolUse name))) ->
         toolUseDeltas JSON_parse deltaTexts inputs ->
         JSON_parse stopText = Some (encode ContentBlockStop) ->
         exists results,
           processEvents JSON_parse (startText :: deltaTexts ++ [stopText]) rt
           = (Normal results,
              {| this := {| currentContentBlockType := CBNull;
                            toolUseBuffer := fold_left String.append inputs "" |};
                 console := console rt |}))
  /\ (forall f eventText rt,
         JSON_parse eventText = Some (encode f) ->
         clearsToolUseBuffer f = true ->
         exists result rt',
           processEvent JSON_parse eventText rt = (Normal result, rt')
           /\ toolUseBuffer (this rt') = "")
  /\ (forall rt,
         reset rt
         = (Normal tt, {| this := {| currentContentBlockType := CBNull;
                                     toolUseBuffer := "" |};
                          console := console rt |}))
  /\ (forall f eventText rt,
         JSON_parse eventText = Some (encode f) ->
         clearsToolUseBuffer f = false ->
         exists result rt',
           processEvent JSON_parse eventText rt = (Normal result, rt')
           /\ toolUseBuffer (this rt')
              = match f with
                | ContentBlockDelta (DeltaToolUse input) =>
                    toolUseBuffer (this rt) +:+ input
                | _ => toolUseBuffer (this rt)
                end).
Proof.
  split; [|split; [|split; [|split]]].
  - intros eventText rt H. eexists.
    rewrite (processEvent_frame _ _ _ _ H). reflexivity.
  - intros name inputs startText deltaTexts stopText rt Hstart Hdeltas Hstop.
    rewrite (processEvents_cons _ _ _ _ _ _
               (processEvent_frame _ _ _ _ Hstart)).
    simpl.
    rewrite (processEvents_toolUseDeltas _ _ _ Hdeltas)
      by (right; reflexivity).
    rewrite (processEvents_cons _ _ _ _ _ _
               (processEvent_frame _ _ _ _ Hstop)).
    simpl. eexists. reflexivity.
  - intros f eventText rt H Hclear. eexists _, _.
    split; [apply (processEvent_frame _ _ _ _ H)|].
    destruct f as [|[t|name]| | | | | |]; try discriminate Hclear; reflexivity.
  - intros rt. reflexivity.
  - intros f eventText rt H Hclear. eexists _, _.
    split; [apply (processEvent_frame _ _ _ _ H)|].
    destruct f as [|[t|name]|[t|input|t]| | | | |[m|]];
      try discriminate Hclear; simpl;
      try reflexivity;
      try (destruct (Js.truthy t); reflexivity);
      try (destruct (Js.truthy m); reflexivity).
Qed.

End StreamProcessor.

(** ** The statements at sample inputs *)

Lemma tool_use_round_trip_witness :
  let parse := Json.parseFrames sampleToolFrames in
  parse (Json.frameText (ContentBlockStart (StartToolUse "X")))
  = Some (encode (ContentBlockStart (StartToolUse "X")))
  /\ parse (Json.frameText (ContentBlockDelta (DeltaToolUse sampleToolInput)))
     = Some (encode (ContentBlockDelta (DeltaToolUse sampleToolInput)))
  /\ parse (Json.frameText ContentBlockStop) = Some (encode ContentBlockStop)
  /\ exists rt',
       processEvents parse (map Json.frameText sampleToolFrames) freshRuntime
       = (Normal [ Some {| text := JStr "";
                           trace := Some (JStr ("```" +:+ "X" +:+ LF));
                           metadata := None |};
                   Some {| text := JStr ""; trace := Some (JStr sampleToolInput);
                           metadata := None |};
                   Some {| text := JStr "";
                           trace := Some (JStr (LF +:+ "```" +:+ LF));
                           metadata := None |} ], rt')
       /\ currentContentBlockType (this rt') = CBNull
       /\ toolUseBuffer (this rt') = sampleToolInput
       /\ console rt' = console freshRuntime.
Proof.
  intros parse.
  split; [vm_compute; reflexivity|].
  split; [vm_compute; reflexivity|].
  split; [vm_compute; reflexivity|].
  apply (tool_use_round_trip parse "X" sampleToolInput);
    vm_compute; reflexivity.
Defined.

Lemma processEvent_never_throws_witness :
  Json.parseFrames [] "{" = None
  /\ exists result rt',
       processEvent (Json.parseFrames []) "{" freshRuntime = (Normal result, rt')
       /\ (Json.parseFrames [] "{" = None ->
           result = None /\ this rt' = this freshRuntime).
Proof.
  split; [reflexivity|].
  apply (processEvent_never_throws (Json.parseFrames []) "{" freshRuntime).
Defined.

(** C4, as the specification words it, fails: an exception event whose
    message is the empty string is shown with the fallback text, not with
    its message. *)
Lemma error_frame_empty_message_counterexample :
  Json.parseFrames [sampleEmptyMessage] (Json.frameText sampleEmptyMessage)
  = Some (encode (ErrorFrame Throttling (Some "")))
  /\ processEvent (Json.parseFrames [sampleEmptyMessage])
                  (Json.frameText sampleEmptyMessage) freshRuntime
     = (Normal (Some {| text := JStr "Error: An error occurred";
                        trace := None; metadata := None |}), freshRuntime)
  /\ "Error: An error occurred" <> "Error: " +:+ "".
Proof.
  split; [vm_compute; reflexivity|].
  split; [vm_compute; reflexivity|].
  vm_compute. discriminate.
Qed.

Lemma error_frame_text_witness :
  Json.parseFrames [sampleThrottled] (Json.frameText sampleThrottled)
  = Some (encode (ErrorFrame Throttling (Some "rate limited")))
  /\ processEvent (Json.parseFrames [sampleThrottled])
                  (Json.frameText sampleThrottled) freshRuntime
     = (Normal (Some {| text := JStr ("Error: " +:+ "rate limited");
                        trace := None; metadata := None |}), freshRuntime).
Proof.
  split; [vm_compute; reflexivity|].
  apply (error_frame_text (Json.parseFrames [sampleThrottled]) Throttling
           (Some "rate limited")).
  vm_compute. reflexivity.
Defined.

(** C7, as the specification words it, fails: a content-block-start frame
    whose start text is the empty string returns no record and leaves the
    block kind as it was, here none. *)
Lemma content_block_start_empty_text_counterexample :
  Json.parseFrames [sampleStartEmptyText] (Json.frameText sampleStartEmptyText)
  = Some (encode (ContentBlockStart (StartText "")))
  /\ processEvent (Json.parseFrames [sampleStartEmptyText])
                  (Json.frameText sampleStartEmptyText) freshRuntime
     = (Normal None, freshRuntime)
  /\ currentContentBlockType (this freshRuntime) <> CBText.
Proof.
  split; [vm_compute; reflexivity|].
  split; [vm_compute; reflexivity|].
  discriminate.
Qed.

Lemma content_block_start_text_witness :
  Json.parseFrames [sampleStartText] (Json.frameText sampleStartText)
  = Some (encode (ContentBlockStart (StartText "Hello")))
  /\ "Hello" <> ""
  /\ processEvent (Json.parseFrames [sampleStartText])
                  (Json.frameText sampleStartText) freshRuntime
     = (Normal (Some {| text := JStr "Hello"; trace := None; metadata := None |}),
        {| this := {| currentContentBlockType := CBText;
                      toolUseBuffer := toolUseBuffer (this freshRuntime) |};
           console := console freshRuntime |}).
Proof.
  split; [vm_compute; reflexivity|].
  split; [discriminate|].
  apply (content_block_start_text (Json.parseFrames [sampleStartText]) "Hello").
  - vm_compute. reflexivity.
  - discriminate.
Defined.

Lemma content_block_stop_keeps_tool_buffer_witness :
  let parse := Json.parseFrames sampleToolFrames in
  exists results,
    processEvents parse (map Json.frameText sampleToolFrames) freshRuntime
    = (Normal results,
       {| this := {| currentContentBlockType := CBNull;
                     toolUseBuffer := sampleToolInput |};
          console := [] |}).
Proof.
  intros parse.
  apply (proj1 (proj2 (content_block_stop_keeps_tool_buffer parse))
           "X" [sampleToolInput]
           (Json.frameText (ContentBlockStart (StartToolUse "X")))
           [Json.frameText (ContentBlockDelta (DeltaToolUse sampleToolInput))]
           (Json.frameText ContentBlockStop) freshRuntime).
  - vm_compute. reflexivity.
  - repeat constructor.
  - vm_compute. reflexivity.
Defined.

(** ** Every way [processEvent] can end *)

Lemma bufferStep_same (b : string) : bufferStep b b.
Proof. left. reflexivity. Qed.

Lemma bufferStep_cleared (b : string) : bufferStep b "".
Proof. right. left. reflexivity. Qed.

Lemma bufferStep_appended (b s : string) : bufferStep b (b +:+ s).
Proof. right. right. exists s. reflexivity. Qed.

Create HintDb effect.
#[local] Hint Resolve bufferStep_same bufferStep_cleared bufferStep_appended
  : effect.

Ltac effect_case :=
  cbv beta iota zeta delta [andb negb];
  match goal with
  | |- context [JsVal.getProp ?v ?k] => destruct (JsVal.getProp v k)
  | |- context [JsVal.hasProperty ?k ?v] =>
      destruct (JsVal.hasProperty k v) as [[|]|]
  | |- context [JsVal.toStr ?v] => destruct (JsVal.toStr v)
  | |- context [JsVal.truthy ?v] => destruct (JsVal.truthy v) eqn:?
  | |- context [match ?x with JUndefined => _ | _ => _ end] => destruct x
  | |- context [match ?x with CBText => _ | _ => _ end] => destruct x
  end.

Ltac effect_done :=
  cbn;
  first
    [ reflexivity
    | split; simpl; [reflexivity | auto with effect]
    | apply EffMetadata
    | apply EffNone; simpl; auto with effect
    | apply EffTextOnly; simpl; auto
    | apply EffTraceOnly; simpl; [auto with effect | discriminate] ].

Ltac handler_cases :=
  intros [[kind buffer] out];
  unfold logicalOr, reset, setCurrentContentBlockType, setToolUseBuffer,
    getCurrentContentBlockType, getToolUseBuffer, bind, orThrow, ret, throw;
  repeat effect_case; effect_done.

Lemma onContentBlockStart_ok (streamEvent : JsVal) :
  handlerOk (onContentBlockStart streamEvent).
Proof. unfold handlerOk, onContentBlockStart. handler_cases. Qed.

Lemma onContentBlockDelta_ok (streamEvent : JsVal) :
  handlerOk (onContentBlockDelta streamEvent).
Proof. unfold handlerOk, onContentBlockDelta. handler_cases. Qed.

Lemma onContentBlockStop_ok (streamEvent : JsVal) :
  handlerOk (onContentBlockStop streamEvent).
Proof. unfold handlerOk, onContentBlockStop. handler_cases. Qed.

Lemma onMetadata_ok (streamEvent : JsVal) :
  handlerOk (onMetadata streamEvent).
Proof. unfold handlerOk, onMetadata. handler_cases. Qed.

Lemma onErrorEvent_ok (streamEvent : JsVal) :
  handlerOk (onErrorEvent streamEvent).
Proof. unfold handlerOk, onErrorEvent. handler_cases. Qed.

Lemma onRedactContent_ok (streamEvent : JsVal) :
  handlerOk (onRedactContent streamEvent).
Proof. unfold handlerOk, onRedactContent. handler_cases. Qed.

Lemma thrownOk_refl (rt : Runtime) : thrownOk rt rt.
Proof. split; [reflexivity | apply bufferStep_same]. Qed.

Lemma effect_ignored (rt : Runtime) : Effect rt None rt.
Proof. destruct rt as [p out]. apply EffNone. apply bufferStep_same. Qed.

Lemma effect_reset (rt : Runtime) :
  Effect rt None {| this := {| currentContentBlockType := CBNull;
                               toolUseBuffer := "" |};
                    console := console rt |}.
Proof. apply EffNone. apply bufferStep_cleared. Qed.

Lemma statementsOk_orElse (h : M Flow) (rest : M (option Output)) :
  handlerOk h -> statementsOk rest -> statementsOk (orElse h rest).
Proof.
  intros Hh Hrest rt. unfold orElse, bind. specialize (Hh rt).
  destruct (h rt) as [[[result|]|] rt1]; cbn.
  - exact Hh.
  - subst rt1. apply Hrest.
  - exact Hh.
Qed.

Lemma statementsOk_read (o : option JsVal) (k : JsVal -> M (option Output)) :
  (forall v, statementsOk (k v)) -> statementsOk (bind (orThrow o) k).
Proof.
  intros Hk rt. unfold bind, orThrow.
  destruct o as [v|]; cbn; [apply Hk | apply thrownOk_refl].
Qed.

Lemma statementsOk_reset : statementsOk (reset ;; ret None).
Proof. intros rt. cbn. apply effect_reset. Qed.

Lemma statementsOk_null : statementsOk (ret None).
Proof. intros rt. cbn. apply effect_ignored. Qed.

Lemma processParsedEvent_ok (parsedEvent : JsVal) :
  statementsOk (processParsedEvent parsedEvent).
Proof.
  unfold processParsedEvent.
  apply statementsOk_read; intros streamEvent.
  destruct (JsVal.truthy streamEvent); cbn; [|apply statementsOk_null].
  apply statementsOk_read; intros messageStart.
  destruct (JsVal.truthy messageStart); [apply statementsOk_reset|].
  apply statementsOk_orElse; [apply onContentBlockStart_ok|].
  apply statementsOk_orElse; [apply onContentBlockDelta_ok|].
  apply statementsOk_orElse; [apply onContentBlockStop_ok|].
  apply statementsOk_read; intros messageStop.
  destruct (JsVal.truthy messageStop); [apply statementsOk_reset|].
  apply statementsOk_orElse; [apply onMetadata_ok|].
  apply statementsOk_orElse; [apply onErrorEvent_ok|].
  apply statementsOk_orElse; [apply onRedactContent_ok|].
  apply statementsOk_null.
Qed.

Lemma processEvent_effect
    (JSON_parse : string -> option JsVal) (eventText : string) (rt : Runtime) :
  exists result rt',
    processEvent JSON_parse eventText rt = (Normal result, rt')
    /\ Effect rt result rt'.
Proof.
  unfold processEvent, tryCatch.
  assert (statementsOk (processEventBody JSON_parse eventText)) as Hbody.
  { unfold processEventBody. apply statementsOk_read.
    apply processParsedEvent_ok. }
  specialize (Hbody rt).
  destruct (processEventBody JSON_parse eventText rt) as [[result|] rt1].
  - eexists _, _. split; [reflexivity | exact Hbody].
  - destruct Hbody as [Hconsole Hbuffer]. cbn.
    eexists _, _. split; [reflexivity|].
    rewrite Hconsole. apply EffCaught. exact Hbuffer.
Qed.

(** ** Further properties of the converter *)

Lemma append_empty_r (s : string) : s +:+ "" = s.
Proof.
  induction s as [|c r IH]; [reflexivity|].
  rewrite append_String, IH. reflexivity.
Qed.

Lemma length_append (a b : string) :
  String.length (a +:+ b) = String.length a + String.length b.
Proof.
  induction a as [|c r IH]; [reflexivity|].
  rewrite append_String. simpl. rewrite IH. reflexivity.
Qed.

Lemma stripPrefix_append (p s r : string) :
  Js.stripPrefix p s = Some r -> s = p +:+ r.
Proof.
  revert s. induction p as [|a p IH]; intros s; simpl.
  - intros H. inversion H. reflexivity.
  - destruct s as [|b s]; [discriminate|].
    destruct (Ascii.eqb a b) eqn:Hab; [|discriminate].
    apply Ascii.eqb_eq in Hab. subst b. intros H.
    rewrite append_String, <- (IH _ H). reflexivity.
Qed.

Lemma afterGreedyComma_append (s rest : string) :
  Js.afterGreedyComma s = Some rest -> exists pre, s = pre +:+ rest.
Proof.
  revert rest. induction s as [|c r IH]; intros rest; simpl; [discriminate|].
  destruct (Js.isLineTerminator c); [discriminate|].
  destruct (Js.afterGreedyComma r) as [rest'|].
  - intros H. inversion H. subst rest'.
    destruct (IH rest eq_refl) as [pre Hpre].
    exists (String c pre). rewrite append_String, <- Hpre. reflexivity.
  - destruct (Ascii.eqb c ","); [|discriminate].
    intros H. inversion H. exists (String c ""). reflexivity.
Qed.

(** X1: the video table gives every format of its result type but [mpg],
    which no MIME type yields; the image and the document table give each
    of their formats. *)
Theorem format_lookup_range :
  (forall f, (exists m, getVideoFormatFromMimeType m = Entry f) <-> f <> mpg)
  /\ (forall f, exists m, getImageFormatFromMimeType m = Entry f)
  /\ (forall f, exists m, getDocumentFormatFromMimeType m = Entry f).
Proof.
  split; [|split].
  - intros f. split.
    + intros [m H] ->. unfold getVideoFormatFromMimeType, readProperty in H.
      destruct (videoFormatMap !! Js.toLowerCase m) as [g|] eqn:Hl.
      * injection H as ->. unfold videoFormatMap in Hl.
        apply elem_of_list_to_map_2 in Hl.
        repeat (apply elem_of_cons in Hl as [Hl|Hl]; [discriminate Hl|]).
        inversion Hl.
      * destruct (isPrototypeMember _); discriminate H.
    + intros Hf. destruct f; try contradiction.
      * exists "video/x-flv". vm_compute. reflexivity.
      * exists "video/x-matroska". vm_compute. reflexivity.
      * exists "video/quicktime". vm_compute. reflexivity.
      * exists "video/mpeg". vm_compute. reflexivity.
      * exists "video/mp4". vm_compute. reflexivity.
      * exists "video/3gpp". vm_compute. reflexivity.
      * exists "video/webm". vm_compute. reflexivity.
      * exists "video/x-ms-wmv". vm_compute. reflexivity.
  - intros [].
    + exists "image/png". vm_compute. reflexivity.
    + exists "image/jpg". vm_compute. reflexivity.
    + exists "image/gif". vm_compute. reflexivity.
    + exists "image/webp". vm_compute. reflexivity.
  - intros [].
    + exists "application/pdf". vm_compute. reflexivity.
    + exists "text/csv". vm_compute. reflexivity.
    + exists "application/msword". vm_compute. reflexivity.
    + exists "application/vnd.openxmlformats-officedocument.wordprocessingml.document".
      vm_compute. reflexivity.
    + exists "application/vnd.ms-excel". vm_compute. reflexivity.
    + exists "application/vnd.openxmlformats-officedocument.spreadsheetml.sheet".
      vm_compute. reflexivity.
    + exists "text/html". vm_compute. reflexivity.
    + exists "text/plain". vm_compute. reflexivity.
    + exists "text/markdown". vm_compute. reflexivity.
Qed.

(** X2: the resolver ends in one of three ways.  It gives a block exactly
    when the bytes resolve to a string that is not empty and the attachment
    is an image, a file or a video, and then writes nothing; it returns
    null with one warning; or it throws, which happens exactly when the
    source is s3, no uploaded file resolves it and the locator names a
    member the cache inherits without owning it, and then nothing is
    written. *)
Theorem resolver_block_iff
    (data : ExtraData)
    (uploadedFiles : option (list UploadedFileType))
    (base64Cache : option (gmap string string)) :
  let r := convertExtraDataToStrandsContentBlock data uploadedFiles base64Cache in
  ((exists block, r.1 = Normal (Some block)) <->
   (exists b, resolveBase64Data data uploadedFiles base64Cache = Normal (Some b)
              /\ b <> "")
   /\ (data_type data = "image" \/ data_type data = "file"
       \/ data_type data = "video"))
  /\ ((exists block, r.1 = Normal (Some block)) -> r.2 = [])
  /\ (r.1 = Normal None -> exists warning, r.2 = [warning])
  /\ (r.1 = Thrown
      <-> hitsPrototypeMember uploadedFiles base64Cache data = true)
  /\ (r.1 = Thrown -> r.2 = []).
Proof.
  intros r. subst r.
  destruct (resolver_thrown data uploadedFiles base64Cache) as [Hiff Hquiet].
  split; [|split; [|split; [|split; [exact Hiff | exact Hquiet]]]];
    clear Hiff Hquiet; unfold convertExtraDataToStrandsContentBlock.
  - destruct (resolveBase64Data data uploadedFiles base64Cache) as [[b|]|];
      simpl.
    2,3: split; [intros [x Hx]; discriminate Hx
                | intros [[b [Hb _]] _]; discriminate Hb].
    destruct b as [|c b]; simpl.
    { split; [intros [x Hx]; discriminate Hx|].
      intros [[b [Hb Hne]] _]. inversion Hb. subst b. contradiction. }
    assert (exists b0, Normal (Some (String c b)) = Normal (Some b0)
                       /\ b0 <> "") as Hbytes.
    { eexists. split; [reflexivity|discriminate]. }
    destruct (String.eqb_spec (data_type data) "image") as [Hi|Hi]; simpl;
      [split; eauto|].
    destruct (String.eqb_spec (data_type data) "file") as [Hf|Hf]; simpl;
      [split; eauto|].
    destruct (String.eqb_spec (data_type data) "video") as [Hv|Hv]; simpl;
      [split; eauto|].
    split; [intros [x Hx]; discriminate Hx|].
    intros [_ [H|[H|H]]]; contradiction.
  - destruct (resolveBase64Data data uploadedFiles base64Cache) as [[b|]|];
      simpl; try (intros [x Hx]; discriminate Hx).
    destruct (Js.truthy b); simpl; [|intros [x Hx]; discriminate Hx].
    resolver_cases; try reflexivity; intros [x Hx]; discriminate Hx.
  - destruct (resolveBase64Data data uploadedFiles base64Cache) as [[b|]|];
      simpl; [|eauto|discriminate].
    destruct (Js.truthy b); simpl; [|eauto].
    resolver_cases; try discriminate; eauto.
Qed.

Lemma resolver_block_or_warning
    (data : ExtraData)
    (uploadedFiles : option (list UploadedFileType))
    (base64Cache : option (gmap string string)) :
  hitsPrototypeMember uploadedFiles base64Cache data = false ->
  match (convertExtraDataToStrandsContentBlock data uploadedFiles base64Cache).1
  with
  | Normal (Some block) =>
      isTextBlock block = false
      /\ (convertExtraDataToStrandsContentBlock
            data uploadedFiles base64Cache).2 = []
  | Normal None =>
      length (convertExtraDataToStrandsContentBlock
                data uploadedFiles base64Cache).2 = 1
  | Thrown => False
  end.
Proof.
  intros Hno.
  pose proof (proj1 (resolver_thrown data uploadedFiles base64Cache)) as Hiff.
  revert Hiff. unfold convertExtraDataToStrandsContentBlock.
  destruct (resolveBase64Data data uploadedFiles base64Cache) as [[b|]|];
    simpl.
  - intros _. destruct (Js.truthy b); simpl; [|reflexivity].
    resolver_cases; try reflexivity; split; reflexivity.
  - reflexivity.
  - intros [Hthrown _]. rewrite (Hthrown eq_refl) in Hno. discriminate Hno.
Qed.

Lemma filter_media_app (l1 l2 : list StrandsContentBlock) :
  List.filter (fun block => negb (isTextBlock block)) (l1 ++ l2)
  = List.filter (fun block => negb (isTextBlock block)) l1
    ++ List.filter (fun block => negb (isTextBlock block)) l2.
Proof. apply List.filter_app. Qed.

Lemma message_media_count
    (uploadedFiles : option (list UploadedFileType))
    (base64Cache : option (gmap string string))
    (message : UnrecordedMessage) :
  messageThrows uploadedFiles base64Cache message = false ->
  length (List.filter (fun block => negb (isTextBlock block))
            match textBlocks message
                  ++ attachmentBlocks uploadedFiles base64Cache message with
            | [] => [TextBlock (content message)]
            | blocks => blocks
            end)
  + length (concat (map (fun data =>
                           (convertExtraDataToStrandsContentBlock
                              data uploadedFiles base64Cache).2)
                        (default [] (extraData message))))
  = attachmentCount message.
Proof.
  unfold messageThrows, attachmentCount, attachmentBlocks.
  generalize (default [] (extraData message)). intros extra Hno.
  assert (List.filter (fun block => negb (isTextBlock block))
            match textBlocks message
                  ++ omap (fun data =>
                             match (convertExtraDataToStrandsContentBlock
                                      data uploadedFiles base64Cache).1 with
                             | Normal contentBlock => contentBlock
                             | Thrown => None
                             end) extra with
            | [] => [TextBlock (content message)]
            | blocks => blocks
            end
          = List.filter (fun block => negb (isTextBlock block))
              (omap (fun data =>
                       match (convertExtraDataToStrandsContentBlock
                                data uploadedFiles base64Cache).1 with
                       | Normal contentBlock => contentBlock
                       | Thrown => None
                       end) extra)) as Hfilter.
  { unfold textBlocks.
    destruct (Js.truthy (Js.trim (content message))); cbn [app].
    - reflexivity.
    - destruct (omap _ extra); reflexivity. }
  rewrite Hfilter. clear Hfilter.
  induction extra as [|data extra IH]; [reflexivity|].
  cbn [existsb] in Hno. apply orb_false_iff in Hno as [Hdata Hextra].
  specialize (IH Hextra).
  pose proof (resolver_block_or_warning data uploadedFiles base64Cache Hdata)
    as Hone.
  cbn [omap list_omap map concat length].
  rewrite length_app.
  destruct (convertExtraDataToStrandsContentBlock data uploadedFiles base64Cache)
    as [[[block|]|] warnings]; cbn [fst snd] in *.
  - destruct Hone as [Htext ->]. cbn [List.filter]. rewrite Htext.
    cbn [negb length]. unfold omap in *. lia.
  - unfold omap in *. lia.
  - destruct Hone.
Qed.

(** X3: when the conversion returns, no attachment is lost without a
    trace: the image, document and video blocks of the messages returned
    and the console entries add up to the number of attachments plus one,
    the opening log, which comes first; and there is one message returned
    for each input message. *)
Theorem attachments_converted_or_reported
    (messages : list UnrecordedMessage)
    (uploadedFiles : option (list UploadedFileType))
    (base64Cache : option (gmap string string))
    (out : list StrandsMessage) (console : list ConsoleEntry) :
  convertToStrandsFormat messages uploadedFiles base64Cache
  = (Normal out, console) ->
  sum_list (map mediaBlockCount out) + length console
  = 1 + sum_list (map attachmentCount messages)
  /\ length out = length messages
  /\ head console = Some (LogConvertToStrandsFormat uploadedFiles base64Cache).
Proof.
  rewrite convertToStrandsFormat_result.
  destruct (existsb (messageThrows uploadedFiles base64Cache) messages)
    eqn:Hany.
  - rewrite (mapMessages_throws _ _ _ Hany). discriminate.
  - rewrite (mapMessages_normal _ _ _ Hany). cbn [fst snd].
    intros H. injection H as <- <-.
    split; [|split; [apply length_map | reflexivity]].
    cbn [length]. induction messages as [|message messages IH];
      [reflexivity|].
    cbn [existsb] in Hany. apply orb_false_iff in Hany as [Hm Hrest].
    specialize (IH Hrest).
    pose proof (message_media_count _ _ _ Hm) as Hcount.
    cbn [map sum_list concat]. rewrite length_app.
    unfold mediaBlockCount at 1. cbn [msg_content].
    change (id (attachmentCount message)) with (attachmentCount message).
    match goal with
    | |- id ?x + _ + _ = _ => change (id x) with x
    end.
    lia.
Qed.

Lemma attachments_converted_or_reported_witness :
  convertToStrandsFormat [sampleImageMessage] None None
  = (Normal [ {| msg_role := "user";
                 msg_content := [TextBlock "Look";
                                 ImageBlock Undefined "QUJD"] |} ],
     [LogConvertToStrandsFormat None None; WarnNoBase64Data sampleInlineEmpty])
  /\ sum_list (map mediaBlockCount
                   [ {| msg_role := "user";
                        msg_content := [TextBlock "Look";
                                        ImageBlock Undefined "QUJD"] |} ])
     + length [LogConvertToStrandsFormat None None;
               WarnNoBase64Data sampleInlineEmpty]
     = 1 + sum_list (map attachmentCount [sampleImageMessage]).
Proof.
  assert (convertToStrandsFormat [sampleImageMessage] None None
          = (Normal [ {| msg_role := "user";
                         msg_content := [TextBlock "Look";
                                         ImageBlock Undefined "QUJD"] |} ],
             [LogConvertToStrandsFormat None None;
              WarnNoBase64Data sampleInlineEmpty])) as H.
  { vm_compute. reflexivity. }
  split; [exact H|].
  apply (attachments_converted_or_reported _ _ _ _ _ H).
Defined.

(** X4: for an inline source the data is used as it is, a data-URL prefix
    included, and neither the uploaded files nor the cache are looked at. *)
Theorem inline_source_verbatim
    (data : ExtraData)
    (uploadedFiles : option (list UploadedFileType))
    (base64Cache : option (gmap string string)) :
  source_type (source data) = "base64" ->
  convertExtraDataToStrandsContentBlock data uploadedFiles base64Cache
  = convertExtraDataToStrandsContentBlock data None None
  /\ forall block,
       (convertExtraDataToStrandsContentBlock data uploadedFiles base64Cache).1
       = Normal (Some block) ->
       blockBytes block = Some (source_data (source data)).
Proof.
  intros Htype.
  assert (forall u c, resolveBase64Data data u c
                      = Normal (Some (source_data (source data)))) as Hres.
  { intros u c. unfold resolveBase64Data. rewrite Htype. reflexivity. }
  split.
  - unfold convertExtraDataToStrandsContentBlock. rewrite !Hres. reflexivity.
  - intros block. unfold convertExtraDataToStrandsContentBlock. rewrite Hres.
    destruct (Js.truthy _); simpl; [|discriminate].
    resolver_cases; intros H; inversion H; reflexivity.
Qed.

Lemma inline_source_verbatim_witness :
  source_type (source sampleInlineBitmap) = "base64"
  /\ convertExtraDataToStrandsContentBlock sampleInlineBitmap
       (Some [sampleEmptyUpload]) (Some sampleCache)
     = convertExtraDataToStrandsContentBlock sampleInlineBitmap None None.
Proof.
  split; [reflexivity|].
  apply (inline_source_verbatim sampleInlineBitmap (Some [sampleEmptyUpload])
           (Some sampleCache)).
  reflexivity.
Defined.

(** X5: when the first uploaded-file record with the locator has a payload
    that is empty once its data-URL prefix is removed, the attachment is
    dropped with a warning: the cache is not looked at, whatever it holds. *)
Theorem empty_upload_hides_cache
    (data : ExtraData)
    (pre post : list UploadedFileType) (f : UploadedFileType)
    (payload : string)
    (base64Cache : option (gmap string string)) :
  source_type (source data) = "s3" ->
  Forall (fun g => s3Url g <> Some (source_data (source data))) pre ->
  s3Url f = Some (source_data (source data)) ->
  base64EncodedData f = Some payload ->
  Js.replaceDataPrefix payload = "" ->
  convertExtraDataToStrandsContentBlock data (Some (pre ++ f :: post)) base64Cache
  = (Normal None, [WarnNoBase64Data data]).
Proof.
  intros Hs3 Hpre Hf Hp Hempty.
  assert (resolveBase64Data data (Some (pre ++ f :: post)) base64Cache
          = Normal (Some "")) as Hres.
  { rewrite (resolveBase64Data_s3 _ _ _ Hs3),
      (find_first_match _ _ post _ Hpre Hf), Hp, Hempty. reflexivity. }
  unfold convertExtraDataToStrandsContentBlock. rewrite Hres. reflexivity.
Qed.

Lemma empty_upload_hides_cache_witness :
  source_type (source sampleRemoteImage) = "s3"
  /\ cacheLookup (Some sampleCache) (source_data (source sampleRemoteImage))
     = Entry "data:image/png;base64,QUJD"
  /\ convertExtraDataToStrandsContentBlock sampleRemoteImage
       (Some ([] ++ sampleEmptyUpload :: [])) (Some sampleCache)
     = (Normal None, [WarnNoBase64Data sampleRemoteImage]).
Proof.
  split; [reflexivity|]. split; [vm_compute; reflexivity|].
  apply (empty_upload_hides_cache sampleRemoteImage [] [] sampleEmptyUpload
           "data:image/png;base64," (Some sampleCache)).
  - reflexivity.
  - constructor.
  - reflexivity.
  - reflexivity.
  - reflexivity.
Defined.

(** X6: a source whose type is neither base64 nor s3, these two spelled
    exactly so, resolves to nothing: the attachment is dropped with the
    warning of a missing payload, whatever the uploaded files and the cache
    hold. *)
Theorem unknown_source_type_dropped
    (data : ExtraData)
    (uploadedFiles : option (list UploadedFileType))
    (base64Cache : option (gmap string string)) :
  source_type (source data) <> "base64" ->
  source_type (source data) <> "s3" ->
  convertExtraDataToStrandsContentBlock data uploadedFiles base64Cache
  = (Normal None, [WarnNoBase64Data data]).
Proof.
  intros Hb Hs.
  unfold convertExtraDataToStrandsContentBlock, resolveBase64Data.
  apply String.eqb_neq in Hb, Hs. rewrite Hb, Hs. reflexivity.
Qed.

Lemma unknown_source_type_dropped_witness :
  source_type (source sampleUnknownSource) <> "base64"
  /\ source_type (source sampleUnknownSource) <> "s3"
  /\ convertExtraDataToStrandsContentBlock sampleUnknownSource None
       (Some sampleCache)
     = (Normal None, [WarnNoBase64Data sampleUnknownSource]).
Proof.
  split; [discriminate|]. split; [discriminate|].
  apply (unknown_source_type_dropped sampleUnknownSource None (Some sampleCache));
    discriminate.
Defined.

(** X7: removing the data-URL prefix only ever cuts off a front part of the
    string, and it leaves the string as it is exactly when the string does
    not start with data: *)
Theorem replaceDataPrefix_suffix (s : string) :
  (exists front, s = front +:+ Js.replaceDataPrefix s)
  /\ (Js.replaceDataPrefix s = s <-> Js.startsWith s "data:" = false).
Proof.
  unfold Js.replaceDataPrefix, Js.startsWith.
  destruct (Js.stripPrefix "data:" s) as [r|] eqn:Hstrip.
  - apply stripPrefix_append in Hstrip.
    assert (exists front, String.length front >= 5
                          /\ s = front +:+ match Js.afterGreedyComma r with
                                           | Some rest => rest
                                           | None => r
                                           end) as [front [Hlen Hfront]].
    { destruct (Js.afterGreedyComma r) as [rest|] eqn:Hg.
      - destruct (afterGreedyComma_append _ _ Hg) as [pre Hpre].
        exists ("data:" +:+ pre). split.
        + rewrite length_append. simpl. lia.
        + rewrite Hstrip, Hpre.
          repeat rewrite append_String. rewrite append_empty_l. reflexivity.
      - exists "data:". split; [simpl; lia | exact Hstrip]. }
    split; [exists front; exact Hfront|].
    split; [|discriminate].
    intros Heq. rewrite Heq in Hfront.
    apply (f_equal String.length) in Hfront.
    rewrite length_append in Hfront. lia.
  - split; [exists ""; reflexivity|]. split; reflexivity.
Qed.

(** X8: when the resolver returns null for every attachment of every
    message, the conversion returns, and each message becomes the single
    text block holding its content as it is, blank or not and not trimmed,
    under its role. *)
Theorem no_attachment_content_verbatim
    (messages : list UnrecordedMessage)
    (uploadedFiles : option (list UploadedFileType))
    (base64Cache : option (gmap string string)) :
  Forall (fun message =>
            Forall (fun data =>
                      (convertExtraDataToStrandsContentBlock
                         data uploadedFiles base64Cache).1 = Normal None)
                   (default [] (extraData message))) messages ->
  (convertToStrandsFormat messages uploadedFiles base64Cache).1
  = Normal (map (fun message =>
                   {| msg_role := role message;
                      msg_content := [TextBlock (content message)] |})
                messages).
Proof.
  intros Hall. rewrite convertToStrandsFormat_result. cbn [fst].
  assert (Forall (fun message =>
                    messageThrows uploadedFiles base64Cache message = false
                    /\ attachmentBlocks uploadedFiles base64Cache message = [])
                 messages) as Hquiet.
  { eapply Forall_impl; [exact Hall|]. intros message Hm. cbv beta in Hm.
    unfold messageThrows, attachmentBlocks.
    induction Hm as [|data extra Hdata _ [IH1 IH2]]; [split; reflexivity|].
    cbn [existsb omap list_omap]. rewrite IH1, Hdata.
    split; [|unfold omap in *; exact IH2].
    destruct (hitsPrototypeMember uploadedFiles base64Cache data) eqn:Hhit;
      [|reflexivity].
    apply (proj1 (resolver_thrown data uploadedFiles base64Cache)) in Hhit.
    rewrite Hhit in Hdata. discriminate Hdata. }
  assert (existsb (messageThrows uploadedFiles base64Cache) messages = false)
    as Hno.
  { clear Hall. induction Hquiet as [|message messages [Hm _] _ IH];
      [reflexivity|].
    cbn [existsb]. rewrite Hm, IH. reflexivity. }
  rewrite (mapMessages_normal _ _ _ Hno). cbn [fst]. f_equal.
  clear Hall Hno. induction Hquiet as [|message messages [_ Hm] _ IH];
    [reflexivity|].
  cbn [map]. rewrite IH, Hm, app_nil_r. f_equal.
  unfold textBlocks. destruct (Js.truthy _); reflexivity.
Qed.

Lemma no_attachment_content_verbatim_witness :
  Forall (fun message =>
            Forall (fun data =>
                      (convertExtraDataToStrandsContentBlock data None None).1
                      = Normal None)
                   (default [] (extraData message)))
         [samplePlainMessage]
  /\ (convertToStrandsFormat [samplePlainMessage] None None).1
     = Normal [ {| msg_role := "user"; msg_content := [TextBlock " Hello "] |} ].
Proof.
  assert (Forall (fun message =>
            Forall (fun data =>
                      (convertExtraDataToStrandsContentBlock data None None).1
                      = Normal None)
                   (default [] (extraData message)))
         [samplePlainMessage]) as H.
  { repeat constructor. }
  split; [exact H|].
  apply (no_attachment_content_verbatim [samplePlainMessage] None None H).
Defined.

Lemma document_lookup_not_image (mimeType : string) :
  Js.startsWith (Js.toLowerCase mimeType) "image/" = true ->
  getDocumentFormatFromMimeType mimeType = Undefined.
Proof.
  intros Hprefix. unfold getDocumentFormatFromMimeType, readProperty.
  destruct (documentFormatMap !! Js.toLowerCase mimeType) as [f|] eqn:Hl.
  - unfold documentFormatMap in Hl. apply elem_of_list_to_map_2 in Hl.
    repeat (apply elem_of_cons in Hl as [Hl|Hl];
            [injection Hl as Hkey _; rewrite Hkey in Hprefix;
             discriminate Hprefix|]).
    inversion Hl.
  - destruct (isPrototypeMember (Js.toLowerCase mimeType)) eqn:Hp;
      [|reflexivity].
    unfold isPrototypeMember, objectPrototypeMembers in Hp.
    cbn [existsb] in Hp.
    repeat (apply orb_true_iff in Hp as [Hp|Hp];
            [apply String.eqb_eq in Hp; rewrite Hp in Hprefix;
             discriminate Hprefix|]).
    discriminate Hp.
Qed.

(** X9: the raw-file conversion always gives a block, which carries the
    payload as handed in; the block is an image exactly when the MIME type
    starts with image/, else a video exactly when it starts with video/,
    else a document.  The prefix is compared as it is written while the
    tables are read in lower case: an image type written with a capital
    letter in its prefix gives a document without a format. *)
Theorem file_block_kind (file : File) (base64Data : string) :
  (exists block,
      convertFileToStrandsContentBlock file base64Data = Some block
      /\ blockBytes block = Some base64Data
      /\ isImageBlock block = Js.startsWith (file_type file) "image/"
      /\ isVideoBlock block
         = negb (Js.startsWith (file_type file) "image/")
           && Js.startsWith (file_type file) "video/"
      /\ isDocumentBlock block
         = negb (Js.startsWith (file_type file) "image/")
           && negb (Js.startsWith (file_type file) "video/"))
  /\ (Js.startsWith (file_type file) "image/" = false ->
      Js.startsWith (Js.toLowerCase (file_type file)) "image/" = true ->
      convertFileToStrandsContentBlock file base64Data
      = Some (DocumentBlock Undefined
                (Js.replaceOutsideFileNameClass (file_name file)) base64Data)).
Proof.
  split.
  - unfold convertFileToStrandsContentBlock.
    destruct (Js.startsWith (file_type file) "image/");
      [|destruct (Js.startsWith (file_type file) "video/")];
      eexists; repeat split.
  - intros Himage Hlower. unfold convertFileToStrandsContentBlock.
    rewrite Himage, (document_lookup_not_image _ Hlower).
    destruct (Js.startsWith (file_type file) "video/") eqn:Hvideo;
      [|reflexivity].
    exfalso. clear Himage. revert Hlower Hvideo. unfold Js.startsWith.
    destruct (file_type file) as [|c r]; [discriminate|].
    cbn [Js.toLowerCase Js.stripPrefix].
    destruct (Ascii.eqb "v" c) eqn:Hv; [|discriminate].
    apply Ascii.eqb_eq in Hv. subst c. discriminate.
Qed.

Lemma inFileNameClass_placeholder (c : ascii) :
  Js.inFileNameClass (if Js.inFileNameClass c then c else "X"%char) = true.
Proof. destruct (Js.inFileNameClass c) eqn:H; [exact H | reflexivity]. Qed.

Lemma replaceOutsideFileNameClass_stable (s : string) :
  allChars Js.inFileNameClass (Js.replaceOutsideFileNameClass s) = true
  /\ Js.replaceOutsideFileNameClass (Js.replaceOutsideFileNameClass s)
     = Js.replaceOutsideFileNameClass s.
Proof.
  induction s as [|c r [IH1 IH2]]; [split; reflexivity|].
  cbn [Js.replaceOutsideFileNameClass allChars].
  rewrite inFileNameClass_placeholder, IH1, IH2. split; reflexivity.
Qed.

(** X10: every character of a sanitized file name is in the class the
    regular expression keeps, and sanitizing a sanitized name changes
    nothing. *)
Theorem sanitized_name_stable (file : File) (base64Data : string) :
  forall format name bytes,
    convertFileToStrandsContentBlock file base64Data
    = Some (DocumentBlock format name bytes) ->
    allChars Js.inFileNameClass name = true
    /\ Js.replaceOutsideFileNameClass name = name.
Proof.
  intros format name bytes. unfold convertFileToStrandsContentBlock.
  destruct (Js.startsWith (file_type file) "image/"); [discriminate|].
  destruct (Js.startsWith (file_type file) "video/"); [discriminate|].
  intros H. injection H as _ <- _.
  apply replaceOutsideFileNameClass_stable.
Qed.

Lemma sanitized_name_stable_witness :
  convertFileToStrandsContentBlock sampleTabFile "QUJD"
  = Some (DocumentBlock (Entry txt) ("a" +:+ TAB +:+ "bXtxt") "QUJD")
  /\ allChars Js.inFileNameClass ("a" +:+ TAB +:+ "bXtxt") = true
  /\ Js.replaceOutsideFileNameClass ("a" +:+ TAB +:+ "bXtxt")
     = "a" +:+ TAB +:+ "bXtxt".
Proof.
  split; [vm_compute; reflexivity|].
  apply (sanitized_name_stable sampleTabFile "QUJD" (Entry txt)
           ("a" +:+ TAB +:+ "bXtxt") "QUJD").
  vm_compute. reflexivity.
Defined.

(** ** Properties of the batch of raw files *)

Lemma splitAtCommas_no_comma (s : string) :
  allChars notComma s = true -> splitAtCommas s = [s].
Proof.
  induction s as [|c r IH]; [reflexivity|].
  cbn [allChars splitAtCommas]. intros [Hc Hr]%andb_true_iff.
  unfold notComma in Hc. apply negb_true_iff in Hc.
  rewrite Hc, (IH Hr). reflexivity.
Qed.

Lemma splitAtCommas_first (a b : string) :
  allChars notComma a = true ->
  splitAtCommas (a +:+ "," +:+ b) = a :: splitAtCommas b.
Proof.
  induction a as [|c r IH]; intros Ha.
  - rewrite append_empty_l, append_String, append_empty_l. reflexivity.
  - cbn [allChars] in Ha. apply andb_true_iff in Ha as [Hc Hr].
    unfold notComma in Hc. apply negb_true_iff in Hc.
    rewrite append_String. cbn [splitAtCommas]. rewrite Hc, (IH Hr).
    reflexivity.
Qed.

Lemma allChars_append (p : ascii -> bool) (a b : string) :
  allChars p (a +:+ b) = allChars p a && allChars p b.
Proof.
  induction a as [|c r IH]; [reflexivity|].
  rewrite append_String. cbn [allChars]. rewrite IH, andb_assoc. reflexivity.
Qed.

(** X11: when the reader gives a data URL, data: then a media type and an
    encoding without comma, a comma, and a payload without comma, the
    promise of [fileToBase64] resolves to the payload; when the media type
    has no line break either, this is what removing the data-URL prefix
    from the URL gives. *)
Theorem fileToBase64_data_url
    (readAsDataURL : File -> option string) (file : File)
    (mime payload : string) :
  readAsDataURL file = Some ("data:" +:+ mime +:+ "," +:+ payload) ->
  allChars notComma mime = true ->
  allChars notComma payload = true ->
  fileToBase64 readAsDataURL file = Normal (Some payload)
  /\ (allChars notLineTerminator mime = true ->
      Js.replaceDataPrefix ("data:" +:+ mime +:+ "," +:+ payload) = payload).
Proof.
  intros Hread Hmime Hpayload. split.
  - unfold fileToBase64. rewrite Hread.
    change ("data:" +:+ mime +:+ "," +:+ payload)
      with (("data:" +:+ mime) +:+ "," +:+ payload).
    rewrite splitAtCommas_first.
    + rewrite (splitAtCommas_no_comma _ Hpayload). reflexivity.
    + rewrite allChars_append, Hmime. reflexivity.
  - intros Hline. apply replaceDataPrefix_data_url; assumption.
Qed.

Lemma fileToBase64_data_url_witness :
  sampleReader samplePngFile
  = Some ("data:" +:+ "image/png;base64" +:+ "," +:+ "QUJD")
  /\ fileToBase64 sampleReader samplePngFile = Normal (Some "QUJD").
Proof.
  split; [vm_compute; reflexivity|].
  apply (fileToBase64_data_url sampleReader samplePngFile
           "image/png;base64" "QUJD");
    vm_compute; reflexivity.
Defined.

(** X12: when the result of the reader holds no comma, the promise of
    [fileToBase64] resolves, to [undefined]; it is rejected only when the
    read ends in an error. *)
Theorem fileToBase64_without_comma
    (readAsDataURL : File -> option string) (file : File) :
  (forall result,
      readAsDataURL file = Some result ->
      allChars notComma result = true ->
      fileToBase64 readAsDataURL file = Normal None)
  /\ (fileToBase64 readAsDataURL file = Thrown <-> readAsDataURL file = None).
Proof.
  unfold fileToBase64. split.
  - intros result -> Hno. rewrite (splitAtCommas_no_comma _ Hno). reflexivity.
  - destruct (readAsDataURL file); split; intros H; try discriminate H;
      reflexivity.
Qed.

Lemma convertFile_some (file : File) (base64Data : string) :
  exists block, convertFileToStrandsContentBlock file base64Data = Some block.
Proof.
  unfold convertFileToStrandsContentBlock.
  destruct (Js.startsWith (file_type file) "image/");
    [|destruct (Js.startsWith (file_type file) "video/")]; eexists; reflexivity.
Qed.

Lemma fold_convertOneFile
    (readAsDataURL : File -> option string) (files : list File) :
  exists blocks,
    Forall2 blockFromFile (List.filter (readable readAsDataURL) files) blocks
    /\ forall acc,
         fold_left (convertOneFile readAsDataURL) files acc
         = (acc.1 ++ blocks,
            acc.2 ++ replicate (length files - length blocks)
                               ErrorConvertingFile).
Proof.
  induction files as [|file files [blocks [Hfrom Hfold]]].
  - exists []. split; [constructor|].
    intros [b c]. simpl. rewrite !app_nil_r. reflexivity.
  - assert (length blocks <= length files) as Hle.
    { apply Forall2_length in Hfrom. rewrite <- Hfrom.
      apply List.filter_length_le. }
    cbn [fold_left List.filter]. unfold convertOneFile at 2, fileToBase64, readable.
    destruct (readAsDataURL file) as [result|].
    + destruct (splitAtCommas result !! 1) as [base64Data|].
      * destruct (convertFile_some file base64Data) as [block Hblock].
        exists (BlockOf block :: blocks). split.
        { constructor; [exists base64Data; exact Hblock | exact Hfrom]. }
        intros acc. rewrite Hblock, Hfold. cbn [fst snd length].
        rewrite <- app_assoc. reflexivity.
      * exists (BlockWithUndefinedBytes file :: blocks). split.
        { constructor; [reflexivity | exact Hfrom]. }
        intros acc. rewrite Hfold. cbn [fst snd length].
        rewrite <- app_assoc. reflexivity.
    + exists blocks. split; [exact Hfrom|].
      intros acc. rewrite Hfold. cbn [fst snd length].
      rewrite <- app_assoc.
      replace (S (length files) - length blocks)
        with (S (length files - length blocks)) by lia.
      reflexivity.
Qed.

(** X13: the batch returns one element for each file whose read succeeds,
    built from that file and in the order of the files; a file whose read
    fails is left out and costs one error entry, so that the elements and
    the error entries together are as many as the files.  The console
    starts with the opening log. *)
Theorem convertFiles_keeps_order
    (readAsDataURL : File -> option string) (files : list File) :
  Forall2 blockFromFile
          (List.filter (readable readAsDataURL) files)
          (convertFilesToStrandsContentBlocks readAsDataURL files).1
  /\ (convertFilesToStrandsContentBlocks readAsDataURL files).2
     = LogConvertFiles files
       :: replicate
            (length files
             - length (convertFilesToStrandsContentBlocks readAsDataURL files).1)
            ErrorConvertingFile
  /\ length (convertFilesToStrandsContentBlocks readAsDataURL files).1
     <= length files.
Proof.
  unfold convertFilesToStrandsContentBlocks.
  destruct (fold_convertOneFile readAsDataURL files) as [blocks [Hfrom Hfold]].
  rewrite Hfold. cbn [fst snd app]. split; [exact Hfrom|]. split; [reflexivity|].
  apply Forall2_length in Hfrom. rewrite <- Hfrom.
  apply List.filter_length_le.
Qed.

(** X14: the elements returned for a list of files followed by another are
    the elements returned for the first followed by those returned for the
    second: no file changes what another file gives. *)
Theorem convertFiles_app
    (readAsDataURL : File -> option string) (files1 files2 : list File) :
  (convertFilesToStrandsContentBlocks readAsDataURL (files1 ++ files2)).1
  = (convertFilesToStrandsContentBlocks readAsDataURL files1).1
    ++ (convertFilesToStrandsContentBlocks readAsDataURL files2).1.
Proof.
  unfold convertFilesToStrandsContentBlocks.
  rewrite fold_left_app.
  destruct (fold_convertOneFile readAsDataURL files1) as [blocks1 [_ Hfold1]].
  destruct (fold_convertOneFile readAsDataURL files2) as [blocks2 [_ Hfold2]].
  rewrite !Hfold1, !Hfold2. reflexivity.
Qed.

(** X15: when the reader gives for each file a result of the form front,
    comma, payload, with no comma in the front and in the payload, the batch
    returns for each file, in order, the block of the file with its payload,
    and writes nothing but the opening log. *)
Theorem convertFiles_all_loaded
    (readAsDataURL : File -> option string) (payload : File -> string)
    (files : list File) :
  Forall (fun file =>
            exists front,
              allChars notComma front = true
              /\ allChars notComma (payload file) = true
              /\ readAsDataURL file = Some (front +:+ "," +:+ payload file))
         files ->
  convertFilesToStrandsContentBlocks readAsDataURL files
  = (omap (fun file =>
             BlockOf <$> convertFileToStrandsContentBlock file (payload file))
          files,
     [LogConvertFiles files]).
Proof.
  intros Hall. unfold convertFilesToStrandsContentBlocks.
  generalize (LogConvertFiles files). intros entry.
  assert (forall acc,
             fold_left (convertOneFile readAsDataURL) files acc
             = (acc.1 ++ omap (fun file =>
                                 BlockOf <$> convertFileToStrandsContentBlock
                                               file (payload file)) files,
                acc.2)) as H.
  { induction Hall as [|file files [front [Hfront [Hpay Hread]]] _ IH];
      intros [b c].
    - simpl. rewrite app_nil_r. reflexivity.
    - cbn [fold_left]. rewrite IH.
      unfold convertOneFile, fileToBase64. rewrite Hread.
      rewrite (splitAtCommas_first _ _ Hfront),
        (splitAtCommas_no_comma _ Hpay).
      cbn [lookup list_lookup].
      destruct (convertFile_some file (payload file)) as [block Hblock].
      cbn [omap list_omap]. rewrite Hblock. cbn [fmap option_fmap option_map fst snd].
      rewrite <- app_assoc. reflexivity. }
  rewrite H. reflexivity.
Qed.

Lemma convertFiles_all_loaded_witness :
  Forall (fun file =>
            exists front,
              allChars notComma front = true
              /\ allChars notComma ((fun _ => "QUJD") file) = true
              /\ sampleReader file
                 = Some (front +:+ "," +:+ (fun _ => "QUJD") file))
         [samplePngFile]
  /\ convertFilesToStrandsContentBlocks sampleReader [samplePngFile]
     = ([BlockOf (ImageBlock (Entry png) "QUJD")],
        [LogConvertFiles [samplePngFile]]).
Proof.
  assert (Forall (fun file =>
            exists front,
              allChars notComma front = true
              /\ allChars notComma ((fun _ => "QUJD") file) = true
              /\ sampleReader file
                 = Some (front +:+ "," +:+ (fun _ => "QUJD") file))
         [samplePngFile]) as H.
  { constructor; [|constructor].
    exists "data:image/png;base64". repeat split; vm_compute; reflexivity. }
  split; [exact H|].
  apply (convertFiles_all_loaded sampleReader (fun _ => "QUJD")
           [samplePngFile] H).
Defined.

(** ** Further properties of the stream processor *)

(** X16: whatever the frame text, a record that [processEvent] returns has
    a trace or a metadata field only with the empty string as its text,
    never has both, and otherwise has a text that is truthy. *)
Theorem processEvent_output_shape
    (JSON_parse : string -> option JsVal) (eventText : string)
    (rt rt' : Runtime) (out : Output) :
  processEvent JSON_parse eventText rt = (Normal (Some out), rt') ->
  (trace out <> None \/ metadata out <> None -> text out = JStr "")
  /\ (trace out = None \/ metadata out = None)
  /\ (trace out = None -> metadata out = None ->
      JsVal.truthy (text out) = true).
Proof.
  intros H.
  destruct (processEvent_effect JSON_parse eventText rt)
    as [result [rt1 [Hrun Heff]]].
  rewrite H in Hrun. inversion Hrun. subst result rt1. clear Hrun.
  inversion Heff; subst; simpl.
  - split; [intros [Hc|Hc]; contradiction|]. split; [left; reflexivity|]. auto.
  - split; [reflexivity|]. split; [right; reflexivity|]. discriminate.
  - split; [reflexivity|]. split; [left; reflexivity|]. discriminate.
Qed.

Lemma processEvent_output_shape_witness :
  processEvent (Json.parseFrames [sampleThrottled])
               (Json.frameText sampleThrottled) freshRuntime
  = (Normal (Some (textOnly (JStr "Error: rate limited"))), freshRuntime)
  /\ JsVal.truthy (text (textOnly (JStr "Error: rate limited"))) = true.
Proof.
  assert (processEvent (Json.parseFrames [sampleThrottled])
                       (Json.frameText sampleThrottled) freshRuntime
          = (Normal (Some (textOnly (JStr "Error: rate limited"))),
             freshRuntime)) as H.
  { vm_compute. reflexivity. }
  split; [exact H|].
  apply (processEvent_output_shape _ _ _ _ _ H); reflexivity.
Defined.

Ltac console_cases :=
  intros [[kind buffer] out];
  unfold logicalOr, reset, setCurrentContentBlockType, setToolUseBuffer,
    getCurrentContentBlockType, getToolUseBuffer, bind, orThrow, ret, throw;
  repeat effect_case; reflexivity.

Lemma onContentBlockStart_console (streamEvent : JsVal) :
  forall rt, console (onContentBlockStart streamEvent rt).2 = console rt.
Proof. unfold onContentBlockStart. console_cases. Qed.

Lemma onContentBlockDelta_console (streamEvent : JsVal) :
  forall rt, console (onContentBlockDelta streamEvent rt).2 = console rt.
Proof. unfold onContentBlockDelta. console_cases. Qed.

Lemma onContentBlockStop_console (streamEvent : JsVal) :
  forall rt, console (onContentBlockStop streamEvent rt).2 = console rt.
Proof. unfold onContentBlockStop. console_cases. Qed.

Lemma onMetadata_console (streamEvent : JsVal) :
  forall rt, console (onMetadata streamEvent rt).2 = console rt.
Proof. unfold onMetadata. console_cases. Qed.

Lemma onErrorEvent_console (streamEvent : JsVal) :
  forall rt, console (onErrorEvent streamEvent rt).2 = console rt.
Proof. unfold onErrorEvent. console_cases. Qed.

Lemma onRedactContent_console (streamEvent : JsVal) :
  forall rt, console (onRedactContent streamEvent rt).2 = console rt.
Proof. unfold onRedactContent. console_cases. Qed.

Lemma bind_console {A B} (m : M A) (k : A -> M B) :
  (forall rt, console (m rt).2 = console rt) ->
  (forall a rt, console (k a rt).2 = console rt) ->
  forall rt, console (bind m k rt).2 = console rt.
Proof.
  intros Hm Hk rt. unfold bind. specialize (Hm rt).
  destruct (m rt) as [[a|] rt1]; cbn [snd] in *.
  - rewrite Hk. exact Hm.
  - exact Hm.
Qed.

Lemma orThrow_console {A} (o : option A) :
  forall rt, console (orThrow o rt).2 = console rt.
Proof. intros rt. destruct o; reflexivity. Qed.

Lemma orElse_console (h : M Flow) (rest : M (option Output)) :
  (forall rt, console (h rt).2 = console rt) ->
  (forall rt, console (rest rt).2 = console rt) ->
  forall rt, console (orElse h rest rt).2 = console rt.
Proof.
  intros Hh Hrest. unfold orElse. apply bind_console; [exact Hh|].
  intros [result|] rt; [reflexivity | apply Hrest].
Qed.

Lemma processEventBody_console
    (JSON_parse : string -> option JsVal) (eventText : string) :
  forall rt, console (processEventBody JSON_parse eventText rt).2 = console rt.
Proof.
  unfold processEventBody.
  apply bind_console; [apply orThrow_console|]. intros parsedEvent.
  unfold processParsedEvent.
  apply bind_console; [apply orThrow_console|]. intros streamEvent.
  destruct (JsVal.truthy streamEvent); cbn [negb]; [|reflexivity].
  apply bind_console; [apply orThrow_console|]. intros messageStart.
  destruct (JsVal.truthy messageStart); [reflexivity|].
  apply orElse_console; [apply onContentBlockStart_console|].
  apply orElse_console; [apply onContentBlockDelta_console|].
  apply orElse_console; [apply onContentBlockStop_console|].
  apply bind_console; [apply orThrow_console|]. intros messageStop.
  destruct (JsVal.truthy messageStop); [reflexivity|].
  apply orElse_console; [apply onMetadata_console|].
  apply orElse_console; [apply onErrorEvent_console|].
  apply orElse_console; [apply onRedactContent_console|].
  reflexivity.
Qed.

(** X17: whatever the frame text, [processEvent] writes to the console
    exactly when the statements of its [try] block throw: then it returns
    null, keeps the processor as the throw left it and appends the one
    error entry to the console as it was; when they end normally it returns
    their result and the console is as it was.  A text that [JSON.parse]
    rejects is one that makes them throw. *)
Theorem processEvent_console
    (JSON_parse : string -> option JsVal) (eventText : string) (rt : Runtime) :
  match processEventBody JSON_parse eventText rt with
  | (Normal result, rt1) =>
      processEvent JSON_parse eventText rt = (Normal result, rt1)
      /\ console rt1 = console rt
  | (Thrown, rt1) =>
      processEvent JSON_parse eventText rt
      = (Normal None,
         {| this := this rt1;
            console := console rt ++ [ErrorProcessingStreamEvent] |})
  end
  /\ (JSON_parse eventText = None ->
      processEventBody JSON_parse eventText rt = (Thrown, rt)).
Proof.
  split.
  - pose proof (processEventBody_console JSON_parse eventText rt) as Hc.
    unfold processEvent, tryCatch.
    destruct (processEventBody JSON_parse eventText rt) as [[result|] rt1];
      cbn [snd] in Hc.
    + split; [reflexivity | exact Hc].
    + cbn. rewrite Hc. reflexivity.
  - intros Hparse. unfold processEventBody, bind. rewrite Hparse. reflexivity.
Qed.

(** X18: whatever the frame text, one call of [processEvent] leaves the
    tool buffer with its old content as a front part, or empties it: text
    once accumulated is never altered or cut. *)
Theorem processEvent_buffer
    (JSON_parse : string -> option JsVal) (eventText : string) (rt : Runtime) :
  exists result rt',
    processEvent JSON_parse eventText rt = (Normal result, rt')
    /\ (toolUseBuffer (this rt') = ""
        \/ exists appended,
             toolUseBuffer (this rt')
             = toolUseBuffer (this rt) +:+ appended).
Proof.
  destruct (processEvent_effect JSON_parse eventText rt)
    as [result [rt1 [Hrun Heff]]].
  exists result, rt1. split; [exact Hrun|].
  assert (forall b b', bufferStep b b' ->
                       b' = "" \/ exists appended, b' = b +:+ appended) as Hstep.
  { intros b b' [->|[->|[x ->]]]; eauto.
    right. exists "". symmetry. apply append_empty_r. }
  inversion Heff; subst; simpl; try (apply Hstep; assumption).
  - right. exists "". rewrite append_empty_r. assumption.
  - right. exists "". rewrite append_empty_r. reflexivity.
Qed.

Lemma processEvents_total
    (JSON_parse : string -> option JsVal) (eventTexts : list string)
    (rt : Runtime) :
  exists results rt',
    processEvents JSON_parse eventTexts rt = (Normal results, rt')
    /\ length results = length eventTexts.
Proof.
  revert rt. induction eventTexts as [|eventText rest IH]; intros rt.
  - exists [], rt. split; reflexivity.
  - destruct (processEvent_effect JSON_parse eventText rt)
      as [result [rt1 [Hrun _]]].
    destruct (IH rt1) as [results [rt2 [Hrest Hlen]]].
    exists (result :: results), rt2.
    rewrite (processEvents_cons _ _ _ _ _ _ Hrun), Hrest. simpl.
    split; [reflexivity | f_equal; exact Hlen].
Qed.

Lemma processEvents_app
    (JSON_parse : string -> option JsVal) (texts1 texts2 : list string)
    (results1 results2 : list (option Output)) (rt rt1 rt2 : Runtime) :
  processEvents JSON_parse texts1 rt = (Normal results1, rt1) ->
  processEvents JSON_parse texts2 rt1 = (Normal results2, rt2) ->
  processEvents JSON_parse (texts1 ++ texts2) rt
  = (Normal (results1 ++ results2), rt2).
Proof.
  revert rt results1. induction texts1 as [|eventText rest IH];
    intros rt results1 H1 H2.
  - simpl in H1. inversion H1. subst. exact H2.
  - destruct (processEvent_effect JSON_parse eventText rt)
      as [result [rta [Hrun _]]].
    rewrite (processEvents_cons _ _ _ _ _ _ Hrun) in H1.
    destruct (processEvents JSON_parse rest rta) as [[results|] rtb] eqn:Hrest;
      [|discriminate H1].
    inversion H1. subst. simpl app.
    rewrite (processEvents_cons _ _ _ _ _ _ Hrun), (IH _ _ Hrest H2).
    reflexivity.
Qed.

Lemma processEvents_frames
    (JSON_parse : string -> option JsVal) (eventTexts : list string)
    (frames : list Frame) :
  framesOf JSON_parse eventTexts frames ->
  forall rt,
    processEvents JSON_parse eventTexts rt
    = (Normal (runFrames frames (this rt)).1,
       {| this := (runFrames frames (this rt)).2; console := console rt |}).
Proof.
  induction 1 as [|eventText f eventTexts frames Hparse _ IH]; intros rt.
  - destruct rt. reflexivity.
  - rewrite (processEvents_cons _ _ _ _ _ _ (processEvent_frame _ _ _ _ Hparse)).
    rewrite IH. reflexivity.
Qed.

Lemma runFrames_text_deltas (deltas : list string) (rest : list Frame)
    (p : Processor) :
  Forall (fun t => t <> "") deltas ->
  currentContentBlockType p = CBText ->
  runFrames (map (fun t => ContentBlockDelta (DeltaText t)) deltas ++ rest) p
  = (map (fun t => Some (textOnly (JStr t))) deltas ++ (runFrames rest p).1,
     (runFrames rest p).2).
Proof.
  intros Hall Hkind. induction Hall as [|t deltas Ht _ IH].
  - simpl. destruct (runFrames rest p). reflexivity.
  - apply truthy_true in Ht. cbn [map app runFrames frameStep]. rewrite Ht.
    cbn [fst snd].
    replace (withBlockType CBText p) with p
      by (destruct p; simpl in Hkind; subst; reflexivity).
    rewrite IH. reflexivity.
Qed.

Section StreamProcessorFurther.

Variable JSON_parse : string -> option JsVal.

(** X19: the frames of a text block, a start with a text that is not
    empty, deltas with texts that are not empty and the stop, give the
    records holding these texts in order and then a line feed; the block
    kind ends at none, and the tool buffer and the console are as before. *)
Theorem text_block_round_trip
    (startText : string) (deltas eventTexts : list string) (rt : Runtime) :
  framesOf JSON_parse eventTexts
           (ContentBlockStart (StartText startText)
            :: map (fun t => ContentBlockDelta (DeltaText t)) deltas
            ++ [ContentBlockStop]) ->
  startText <> "" ->
  Forall (fun t => t <> "") deltas ->
  processEvents JSON_parse eventTexts rt
  = (Normal (map (fun t => Some (textOnly (JStr t))) (startText :: deltas)
             ++ [Some (textOnly (JStr LF))]),
     {| this := {| currentContentBlockType := CBNull;
                   toolUseBuffer := toolUseBuffer (this rt) |};
        console := console rt |}).
Proof.
  intros Hframes Hstart Hdeltas.
  rewrite (processEvents_frames _ _ _ Hframes).
  apply truthy_true in Hstart.
  cbn [runFrames frameStep]. rewrite Hstart. cbn [fst snd].
  rewrite (runFrames_text_deltas _ _ _ Hdeltas) by reflexivity.
  reflexivity.
Qed.

(** X20: a text delta or a reasoning delta with the empty string returns
    null and changes nothing, while a tool-use delta with the empty string
    as input still returns a record with the empty trace and sets the block
    kind to tool-use. *)
Theorem empty_delta (eventText : string) (rt : Runtime) :
  (JSON_parse eventText = Some (encode (ContentBlockDelta (DeltaText ""))) ->
   processEvent JSON_parse eventText rt = (Normal None, rt))
  /\ (JSON_parse eventText
      = Some (encode (ContentBlockDelta (DeltaReasoning ""))) ->
      processEvent JSON_parse eventText rt = (Normal None, rt))
  /\ (JSON_parse eventText = Some (encode (ContentBlockDelta (DeltaToolUse ""))) ->
      processEvent JSON_parse eventText rt
      = (Normal (Some {| text := JStr ""; trace := Some (JStr "");
                         metadata := None |}),
         {| this := {| currentContentBlockType := CBToolUse;
                       toolUseBuffer := toolUseBuffer (this rt) |};
            console := console rt |})).
Proof.
  split; [|split]; intros H; rewrite (processEvent_frame _ _ _ _ H);
    destruct rt as [[kind buffer] out]; simpl; try reflexivity.
  rewrite append_empty_r. reflexivity.
Qed.

(** X21: a metadata frame returns the record with the empty text and the
    usage of the frame, the three token counts as they are and each cache
    count undefined when the frame has none; nothing else changes. *)
Theorem metadata_frame_usage
    (u : UsagePayload) (eventText : string) (rt : Runtime) :
  JSON_parse eventText = Some (encode (MetadataFrame u)) ->
  processEvent JSON_parse eventText rt
  = (Normal (Some
       {| text := JStr "";
          trace := None;
          metadata := Some {| usage :=
            {| inputTokens := JNum (usageInputTokens u);
               outputTokens := JNum (usageOutputTokens u);
               totalTokens := JNum (usageTotalTokens u);
               cacheReadInputTokens :=
                 match usageCacheRead u with
                 | Some n => JNum n
                 | None => JUndefined
                 end;
               cacheWriteInputTokens :=
                 match usageCacheWrite u with
                 | Some n => JNum n
                 | None => JUndefined
                 end |} |} |}), rt).
Proof.
  intros H. rewrite (processEvent_frame _ _ _ _ H).
  destruct rt. reflexivity.
Qed.

(** X22: after any frame texts at all, well formed or not, a message-start
    or a message-stop frame returns null and leaves the processor as a new
    one is: block kind none, tool buffer empty.  Each text before it has
    given one result. *)
Theorem session_boundary_resets
    (eventTexts : list string) (boundaryText : string) (f : Frame)
    (rt : Runtime) :
  JSON_parse boundaryText = Some (encode f) ->
  f = MessageStart \/ f = MessageStop ->
  exists results rt',
    processEvents JSON_parse (eventTexts ++ [boundaryText]) rt
    = (Normal (results ++ [None]), rt')
    /\ length results = length eventTexts
    /\ this rt' = {| currentContentBlockType := CBNull; toolUseBuffer := "" |}.
Proof.
  intros Hparse Hf.
  destruct (processEvents_total JSON_parse eventTexts rt)
    as [results [rt1 [Hrun Hlen]]].
  exists results. eexists. split; [|split; [exact Hlen|]].
  - apply (processEvents_app _ _ _ _ _ _ _ _ Hrun).
    rewrite (processEvents_cons _ _ _ _ _ _
               (processEvent_frame _ _ _ _ Hparse)).
    destruct Hf as [->| ->]; reflexivity.
  - destruct Hf as [->| ->]; reflexivity.
Qed.

(** X23: what a content-block-stop returns is decided by the last delta
    that was acted on: a line feed after a text delta, the closing fence
    after a tool-use delta, null after a reasoning delta, whatever block
    was open before.  A second stop returns null. *)
Theorem stop_closes_last_delta
    (delta : DeltaPayload) (deltaText stopText : string) (rt : Runtime) :
  JSON_parse deltaText = Some (encode (ContentBlockDelta delta)) ->
  JSON_parse stopText = Some (encode ContentBlockStop) ->
  deltaActs delta = true ->
  exists first rt',
    processEvents JSON_parse [deltaText; stopText; stopText] rt
    = (Normal [first; closingOf delta; None], rt')
    /\ currentContentBlockType (this rt') = CBNull.
Proof.
  intros Hdelta Hstop Hacts.
  assert (framesOf JSON_parse [deltaText; stopText; stopText]
                   [ContentBlockDelta delta; ContentBlockStop; ContentBlockStop])
    as Hframes.
  { repeat constructor; assumption. }
  rewrite (processEvents_frames _ _ _ Hframes).
  destruct delta as [t|input|t]; simpl in Hacts;
    cbn [runFrames frameStep]; rewrite ?Hacts;
    eexists _, _; split; reflexivity.
Qed.

(** X24: a redact-content frame returns the record holding its message
    when it has one that is not empty, and null when it has none or an
    empty one; nothing else changes. *)
Theorem redact_frame
    (message : option string) (eventText : string) (rt : Runtime) :
  JSON_parse eventText = Some (encode (RedactContent message)) ->
  processEvent JSON_parse eventText rt
  = (Normal match message with
            | Some m => if Js.truthy m
                        then Some {| text := JStr m; trace := None;
                                     metadata := None |}
                        else None
            | None => None
            end, rt).
Proof.
  intros H. rewrite (processEvent_frame _ _ _ _ H).
  destruct rt. reflexivity.
Qed.

End StreamProcessorFurther.

Section UntypedFrames.

Variable JSON_parse : string -> option JsVal.

(** X25: a text that parses to a value without a truthy [event] is passed
    over in silence, null returned and nothing changed: an object with no
    or a falsy [event], a boolean, a number, a string, an array.  The value
    [null] is the exception: reading its [event] throws, so null is
    returned with an error entry written. *)
Theorem frame_without_event (eventText : string) (v : JsVal) (rt : Runtime) :
  JSON_parse eventText = Some v ->
  (forall props,
      v = JObj props ->
      JsVal.truthy (default JUndefined (JsVal.assoc "event" props)) = false ->
      processEvent JSON_parse eventText rt = (Normal None, rt))
  /\ ((exists b, v = JBool b) \/ (exists n, v = JNum n)
      \/ (exists s, v = JStr s) \/ (exists items, v = JArr items) ->
      processEvent JSON_parse eventText rt = (Normal None, rt))
  /\ (v = JNull ->
      processEvent JSON_parse eventText rt = (Normal None, logged rt (this rt))).
Proof.
  intros Hparse. rewrite (processEvent_parsed _ _ _ _ Hparse).
  unfold tryCatch, processParsedEvent, bind, orThrow.
  split; [|split].
  - intros props -> Hfalsy. cbn [JsVal.getProp ret]. rewrite Hfalsy.
    reflexivity.
  - intros [[b ->]|[[n ->]|[[s ->]|[items ->]]]]; reflexivity.
  - intros ->. destruct rt. reflexivity.
Qed.

(** X26: a frame whose event has a truthy [messageStart] resets the
    processor and returns null, whatever other fields the event carries. *)
Theorem message_start_wins
    (eventText : string) (props event : list (string * JsVal))
    (messageStart : JsVal) (rt : Runtime) :
  JSON_parse eventText = Some (JObj props) ->
  JsVal.assoc "event" props = Some (JObj event) ->
  JsVal.assoc "messageStart" event = Some messageStart ->
  JsVal.truthy messageStart = true ->
  processEvent JSON_parse eventText rt
  = (Normal None,
     {| this := {| currentContentBlockType := CBNull; toolUseBuffer := "" |};
        console := console rt |}).
Proof.
  intros Hparse Hevent Hstart Htruthy.
  rewrite (processEvent_parsed _ _ _ _ Hparse).
  unfold tryCatch, processParsedEvent, bind, orThrow.
  cbn -[JsVal.assoc JsVal.truthy]. rewrite Hevent.
  cbn -[JsVal.assoc JsVal.truthy].
  change (JsVal.truthy (JObj event)) with true.
  cbn -[JsVal.assoc JsVal.truthy]. rewrite Hstart.
  cbn -[JsVal.assoc JsVal.truthy]. rewrite Htruthy. reflexivity.
Qed.

(** X27: a tool-use delta appends to the buffer the string conversion of
    its input, the text undefined when the input is missing, while the
    record returned carries the input as it was received.  When the input
    cannot be converted, the exception is caught after the block kind has
    been set: null is returned, the error entry written, the buffer left
    alone and the block kind is tool-use. *)
Theorem tool_use_delta_input
    (eventText : string) (toolUse : list (string * JsVal)) (rt : Runtime) :
  JSON_parse eventText
  = Some (obj1 "event"
               (obj1 "contentBlockDelta"
                     (obj1 "delta" (obj1 "toolUse" (JObj toolUse))))) ->
  let input := default JUndefined (JsVal.assoc "input" toolUse) in
  processEvent JSON_parse eventText rt
  = match JsVal.toStr input with
    | Some inputText =>
        (Normal (Some {| text := JStr ""; trace := Some input;
                         metadata := None |}),
         {| this := {| currentContentBlockType := CBToolUse;
                       toolUseBuffer := toolUseBuffer (this rt) +:+ inputText |};
            console := console rt |})
    | None =>
        (Normal None,
         logged rt {| currentContentBlockType := CBToolUse;
                      toolUseBuffer := toolUseBuffer (this rt) |})
    end.
Proof.
  intros Hparse input. rewrite (processEvent_parsed _ _ _ _ Hparse).
  unfold tryCatch, processParsedEvent, orElse, onContentBlockStart,
    onContentBlockDelta, bind, orThrow.
  cbn -[JsVal.toStr String.append].
  fold input. destruct (JsVal.toStr input); reflexivity.
Qed.

(** X28: a metadata event without a usage, or with null as its usage, is
    not reported: reading the token counts throws, the exception is caught,
    null is returned and the error entry written, the processor unchanged. *)
Theorem metadata_without_usage
    (eventText : string) (meta : list (string * JsVal)) (rt : Runtime) :
  JSON_parse eventText = Some (obj1 "event" (obj1 "metadata" (JObj meta))) ->
  JsVal.assoc "usage" meta = None \/ JsVal.assoc "usage" meta = Some JNull ->
  processEvent JSON_parse eventText rt = (Normal None, logged rt (this rt)).
Proof.
  intros Hparse Husage. rewrite (processEvent_parsed _ _ _ _ Hparse).
  unfold tryCatch, processParsedEvent, orElse, onContentBlockStart,
    onContentBlockDelta, onContentBlockStop, onMetadata, bind, orThrow.
  cbn.
  destruct rt as [p out].
  destruct Husage as [->| ->]; reflexivity.
Qed.

(** X29: when an event carries none of the frame kinds tried earlier, the
    exception event shown is the first truthy one in the order internal
    server, model stream, service unavailable, throttling, validation; the
    text is Error: followed by the string conversion of its message, or of
    the fallback when the message is falsy; nothing else changes. *)
Theorem first_error_event_shown
    (eventText : string) (event : list (string * JsVal))
    (errorEvent message : JsVal) (shown : string) (rt : Runtime) :
  JSON_parse eventText = Some (obj1 "event" (JObj event)) ->
  Forall (fun name => JsVal.assoc name event = None) earlierEventNames ->
  firstErrorEvent event = Some errorEvent ->
  JsVal.getProp errorEvent "message" = Some message ->
  JsVal.toStr (if JsVal.truthy message then message
               else JStr "An error occurred") = Some shown ->
  processEvent JSON_parse eventText rt
  = (Normal (Some {| text := JStr ("Error: " +:+ shown); trace := None;
                     metadata := None |}), rt).
Proof.
  intros Hparse Hearlier Hfirst Hmessage Hshown.
  rewrite (processEvent_parsed _ _ _ _ Hparse).
  repeat (apply Forall_cons in Hearlier as [? Hearlier]).
  unfold tryCatch, processParsedEvent, orElse, onContentBlockStart,
    onContentBlockDelta, onContentBlockStop, onMetadata, onErrorEvent,
    logicalOr, bind, orThrow.
  cbn -[JsVal.toStr JsVal.truthy String.append].
  repeat match goal with
         | H : JsVal.assoc _ event = None |- _ => rewrite H; clear H
         end.
  cbn -[JsVal.toStr JsVal.truthy String.append].
  change (JsVal.truthy (JObj event)) with true.
  change (JsVal.truthy JUndefined) with false.
  cbv beta iota delta [negb].
  unfold firstErrorEvent, errorEventNames in Hfirst.
  cbn -[JsVal.truthy] in Hfirst.
  assert (JsVal.truthy errorEvent = true) as Htruthy.
  { repeat match type of Hfirst with
           | (if ?c then _ else _) = _ =>
               destruct c eqn:?; [inversion Hfirst; subst; assumption|]
           end.
    discriminate Hfirst. }
  destruct rt as [p out].
  repeat match type of Hfirst with
         | (if JsVal.truthy ?e then _ else _) = _ =>
             destruct (JsVal.truthy e) eqn:?;
               [inversion Hfirst; subst; cbn -[JsVal.toStr JsVal.truthy String.append];
                rewrite Htruthy, Hmessage;
                cbn -[JsVal.toStr JsVal.truthy String.append];
                destruct (JsVal.truthy message);
                cbn -[JsVal.toStr String.append];
                rewrite Hshown; reflexivity|]
         end.
  discriminate Hfirst.
Qed.

End UntypedFrames.

(** ** The further statements at sample inputs *)

Lemma text_block_round_trip_witness :
  framesOf (Json.parseFrames sampleTextFrames)
           (map Json.frameText sampleTextFrames)
           (ContentBlockStart (StartText "Hel")
            :: map (fun t => ContentBlockDelta (DeltaText t)) ["lo"]
            ++ [ContentBlockStop])
  /\ "Hel" <> ""
  /\ Forall (fun t => t <> "") ["lo"]
  /\ processEvents (Json.parseFrames sampleTextFrames)
                   (map Json.frameText sampleTextFrames) freshRuntime
     = (Normal (map (fun t => Some (textOnly (JStr t))) ["Hel"; "lo"]
                ++ [Some (textOnly (JStr LF))]),
        {| this := {| currentContentBlockType := CBNull;
                      toolUseBuffer := toolUseBuffer (this freshRuntime) |};
           console := console freshRuntime |}).
Proof.
  assert (framesOf (Json.parseFrames sampleTextFrames)
                   (map Json.frameText sampleTextFrames)
                   (ContentBlockStart (StartText "Hel")
                    :: map (fun t => ContentBlockDelta (DeltaText t)) ["lo"]
                    ++ [ContentBlockStop])) as H.
  { repeat constructor. }
  assert (Forall (fun t => t <> "") ["lo"]) as Hd.
  { repeat constructor. discriminate. }
  split; [exact H|]. split; [discriminate|]. split; [exact Hd|].
  apply (text_block_round_trip (Json.parseFrames sampleTextFrames)
           "Hel" ["lo"] _ freshRuntime H); [discriminate | exact Hd].
Defined.

Lemma metadata_frame_usage_witness :
  Json.parseFrames [MetadataFrame sampleUsage]
                   (Json.frameText (MetadataFrame sampleUsage))
  = Some (encode (MetadataFrame sampleUsage))
  /\ processEvent (Json.parseFrames [MetadataFrame sampleUsage])
                  (Json.frameText (MetadataFrame sampleUsage)) freshRuntime
     = (Normal (Some
          {| text := JStr "";
             trace := None;
             metadata := Some {| usage :=
               {| inputTokens := JNum "10";
                  outputTokens := JNum "5";
                  totalTokens := JNum "15";
                  cacheReadInputTokens := JUndefined;
                  cacheWriteInputTokens := JUndefined |} |} |}), freshRuntime).
Proof.
  split; [vm_compute; reflexivity|].
  apply (metadata_frame_usage (Json.parseFrames [MetadataFrame sampleUsage])
           sampleUsage).
  vm_compute. reflexivity.
Defined.

Lemma session_boundary_resets_witness :
  Json.parseFrames (MessageStop :: sampleToolFrames) (Json.frameText MessageStop)
  = Some (encode MessageStop)
  /\ exists results rt',
       processEvents (Json.parseFrames (MessageStop :: sampleToolFrames))
                     (["{"; Json.frameText (ContentBlockStart (StartToolUse "X"))]
                      ++ [Json.frameText MessageStop]) freshRuntime
       = (Normal (results ++ [None]), rt')
       /\ length results = 2
       /\ this rt' = {| currentContentBlockType := CBNull; toolUseBuffer := "" |}.
Proof.
  split; [vm_compute; reflexivity|].
  apply (session_boundary_resets
           (Json.parseFrames (MessageStop :: sampleToolFrames))
           ["{"; Json.frameText (ContentBlockStart (StartToolUse "X"))]
           (Json.frameText MessageStop) MessageStop freshRuntime).
  - vm_compute. reflexivity.
  - right. reflexivity.
Defined.

Lemma stop_closes_last_delta_witness :
  let parse := Json.parseFrames sampleTextFrames in
  parse (Json.frameText (ContentBlockDelta (DeltaText "lo")))
  = Some (encode (ContentBlockDelta (DeltaText "lo")))
  /\ parse (Json.frameText ContentBlockStop) = Some (encode ContentBlockStop)
  /\ deltaActs (DeltaText "lo") = true
  /\ exists first rt',
       processEvents parse
                     [ Json.frameText (ContentBlockDelta (DeltaText "lo"));
                       Json.frameText ContentBlockStop;
                       Json.frameText ContentBlockStop ]
                     {| this := {| currentContentBlockType := CBToolUse;
                                   toolUseBuffer := "{" |};
                        console := [] |}
       = (Normal [first; Some (textOnly (JStr LF)); None], rt')
       /\ currentContentBlockType (this rt') = CBNull.
Proof.
  intros parse.
  split; [vm_compute; reflexivity|].
  split; [vm_compute; reflexivity|].
  split; [reflexivity|].
  apply (stop_closes_last_delta parse (DeltaText "lo"));
    vm_compute; reflexivity.
Defined.

Lemma redact_frame_witness :
  Json.parseFrames [sampleRedact] (Json.frameText sampleRedact)
  = Some (encode (RedactContent (Some "redacted")))
  /\ processEvent (Json.parseFrames [sampleRedact])
                  (Json.frameText sampleRedact) freshRuntime
     = (Normal (Some {| text := JStr "redacted"; trace := None;
                        metadata := None |}), freshRuntime).
Proof.
  split; [vm_compute; reflexivity|].
  apply (redact_frame (Json.parseFrames [sampleRedact]) (Some "redacted")).
  vm_compute. reflexivity.
Defined.

Lemma frame_without_event_witness :
  parseOnly (JArr []) "[]" = Some (JArr [])
  /\ processEvent (parseOnly (JArr [])) "[]" freshRuntime
     = (Normal None, freshRuntime).
Proof.
  split; [vm_compute; reflexivity|].
  apply (frame_without_event (parseOnly (JArr [])) "[]" (JArr []) freshRuntime).
  - vm_compute. reflexivity.
  - right. right. right. exists []. reflexivity.
Defined.

Lemma message_start_wins_witness :
  let eventText := default "" (Json.stringify sampleStartAndStop) in
  parseOnly sampleStartAndStop eventText = Some sampleStartAndStop
  /\ processEvent (parseOnly sampleStartAndStop) eventText
                  {| this := {| currentContentBlockType := CBText;
                                toolUseBuffer := "{" |};
                     console := [] |}
     = (Normal None, freshRuntime).
Proof.
  intros eventText.
  split; [vm_compute; reflexivity|].
  apply (message_start_wins (parseOnly sampleStartAndStop) eventText
           [ ("event",
              JObj [ ("contentBlockStop", JObj []);
                     ("messageStart", obj1 "role" (JStr "assistant")) ]) ]
           [ ("contentBlockStop", JObj []);
             ("messageStart", obj1 "role" (JStr "assistant")) ]
           (obj1 "role" (JStr "assistant")));
    vm_compute; reflexivity.
Defined.

Lemma tool_use_delta_input_witness :
  let eventText := default "" (Json.stringify sampleNumberInput) in
  parseOnly sampleNumberInput eventText = Some sampleNumberInput
  /\ processEvent (parseOnly sampleNumberInput) eventText freshRuntime
     = (Normal (Some {| text := JStr ""; trace := Some (JNum "7");
                        metadata := None |}),
        {| this := {| currentContentBlockType := CBToolUse;
                      toolUseBuffer := "7" |};
           console := [] |}).
Proof.
  intros eventText.
  split; [vm_compute; reflexivity|].
  apply (tool_use_delta_input (parseOnly sampleNumberInput) eventText
           [("input", JNum "7")] freshRuntime).
  vm_compute. reflexivity.
Defined.

Lemma metadata_without_usage_witness :
  let v := obj1 "event" (obj1 "metadata" (JObj [])) in
  let eventText := default "" (Json.stringify v) in
  parseOnly v eventText = Some v
  /\ JsVal.assoc "usage" (@nil (string * JsVal)) = None
  /\ processEvent (parseOnly v) eventText freshRuntime
     = (Normal None, logged freshRuntime (this freshRuntime)).
Proof.
  intros v eventText.
  split; [vm_compute; reflexivity|]. split; [reflexivity|].
  apply (metadata_without_usage (parseOnly v) eventText [] freshRuntime).
  - vm_compute. reflexivity.
  - left. reflexivity.
Defined.

Lemma first_error_event_shown_witness :
  let eventText := default "" (Json.stringify sampleTwoErrors) in
  parseOnly sampleTwoErrors eventText = Some sampleTwoErrors
  /\ processEvent (parseOnly sampleTwoErrors) eventText freshRuntime
     = (Normal (Some {| text := JStr ("Error: " +:+ "stream"); trace := None;
                        metadata := None |}), freshRuntime).
Proof.
  intros eventText.
  split; [vm_compute; reflexivity|].
  apply (first_error_event_shown (parseOnly sampleTwoErrors) eventText
           [ ("validationException", obj1 "message" (JStr "invalid"));
             ("modelStreamErrorException", obj1 "message" (JStr "stream")) ]
           (obj1 "message" (JStr "stream")) (JStr "stream") "stream"
           freshRuntime).
  - vm_compute. reflexivity.
  - repeat constructor.
  - vm_compute. reflexivity.
  - reflexivity.
  - reflexivity.
Defined.
